(** * Signed authentication tokens: issuing and verifying

    A shallow embedding of the Go package [token] (file [token/verifier.go]
    and the protobuf-based issuer that accompanies it), and the properties of
    its specification that hold, or fail, on that code.

    Layout:
    - Go values the package handles (errors, keys, tokens);
    - the interface of the libraries the package calls (go-jose, x509,
      protobuf, encoding/json), as a type class;
    - the calls the package makes to its host (files, clock, random source),
      as a small free monad [Go] with an interpreter;
    - the package's functions, one module per source file;
    - a small executable instance of the library and the host;
    - the theorems. *)

From Stdlib Require Import ZArith List String Ascii Bool Lia.
From Stdlib.Strings Require Import Byte.
Import ListNotations.

Local Open Scope string_scope.
Local Open Scope Z_scope.

(* ================================================================== *)
(** ** Go values *)

(** A Go [error] is identified with the message its [Error()] method
    returns; the nil error is [None] of [option error]. *)
Definition error := string.

(** What a library or host call returns.  Go returns a pair
    [(value, err)]; every caller in this package tests [err != nil] before
    it reads the value, so the pair is read as a sum. *)
Inductive result (A : Type) : Type :=
| Ok (a : A)
| Err (e : error).
Arguments Ok {A} a.
Arguments Err {A} e.

(** [fmt.Errorf] with the verbs the package uses ([%T], [%s], [%v]), the
    arguments already rendered. *)
Definition Errorf (parts : list string) : error := String.concat "" parts.

(** [os.FileMode]: the permission bits, written in octal in the source. *)
Definition FileMode := Z.
Definition octal (u g o : Z) : FileMode := u * 64 + g * 8 + o.

Module elliptic.
(** The named curves of [crypto/elliptic]. *)
Inductive Curve := P224 | P256 | P384 | P521.

(** [c.Params().Name] *)
Definition Name (c : Curve) : string :=
  match c with
  | P224 => "P-224"
  | P256 => "P-256"
  | P384 => "P-384"
  | P521 => "P-521"
  end.
End elliptic.

Module ecdsa.
Record PublicKey := { Curve : elliptic.Curve; X : Z; Y : Z }.
Record PrivateKey := { Public : PublicKey; D : Z }.
End ecdsa.

Module rsa.
Record PublicKey := { N : Z; E : Z }.
Record PrivateKey := { Public : PublicKey; D : Z }.
End rsa.

(** The dynamic type behind the [interface{}] that [jose.LoadPublicKey]
    and [jose.LoadPrivateKey] return. *)
Inductive crypto_PublicKey :=
| EcdsaPublicKey (k : ecdsa.PublicKey)
| RsaPublicKey (k : rsa.PublicKey).

Inductive crypto_PrivateKey :=
| EcdsaPrivateKey (k : ecdsa.PrivateKey)
| RsaPrivateKey (k : rsa.PrivateKey).

(** The rendering of the verb [%T]. *)
Definition typeOfPublic (k : crypto_PublicKey) : string :=
  match k with
  | EcdsaPublicKey _ => "*ecdsa.PublicKey"
  | RsaPublicKey _ => "*rsa.PublicKey"
  end.

Definition typeOfPrivate (k : crypto_PrivateKey) : string :=
  match k with
  | EcdsaPrivateKey _ => "*ecdsa.PrivateKey"
  | RsaPrivateKey _ => "*rsa.PrivateKey"
  end.

(** Modelled from the spec: the declarations of [AuthToken] and [pb.Token]
    are not part of the source at hand.  The specification gives a token a
    mandatory [expiration] (an integer, milliseconds since the epoch, an
    [int64] in [TokenExpired]) and further claim fields that are opaque to
    this package and carried verbatim in the signed payload. *)
Record Token := { Expiration : Z; Claims : list byte }.

Definition AuthToken := Token.
Definition pb_Token := Token.

(** [jose.SignatureAlgorithm] is a string type. *)
Definition SignatureAlgorithm := string.
Definition ES256 : SignatureAlgorithm := "ES256".

(* ================================================================== *)
(** ** The libraries the package calls *)

(** The functions of go-jose, [crypto/x509], [crypto/ecdsa], protobuf and
    [encoding/json] that the package calls.  Their code is not part of the
    package: the package's functions are defined for every implementation
    of this interface.  A function that draws from [rand.Reader] takes the
    bytes it draws as an argument. *)
Class Library := {
  JsonWebSignature : Type;
  Signer : Type;
  (** [ecdsa.GenerateKey(curve, rand.Reader)] *)
  ecdsa_GenerateKey : elliptic.Curve -> list byte -> result ecdsa.PrivateKey;
  x509_MarshalECPrivateKey : ecdsa.PrivateKey -> result (list byte);
  x509_MarshalPKIXPublicKey : crypto_PublicKey -> result (list byte);
  jose_LoadPrivateKey : list byte -> result crypto_PrivateKey;
  jose_LoadPublicKey : list byte -> result crypto_PublicKey;
  jose_NewSigner : SignatureAlgorithm -> crypto_PrivateKey -> result Signer;
  (** [signer.Sign(payload)], which draws its nonce from [rand.Reader] *)
  signer_Sign : Signer -> list byte -> list byte -> result JsonWebSignature;
  jws_CompactSerialize : JsonWebSignature -> result string;
  jose_ParseSigned : string -> result JsonWebSignature;
  (** [jws.Verify(key)] *)
  jws_Verify : JsonWebSignature -> crypto_PublicKey -> result (list byte);
  (** the algorithm that the protected header of a parsed token declares *)
  jws_Algorithm : JsonWebSignature -> SignatureAlgorithm;
  proto_Marshal : pb_Token -> result (list byte);
  proto_Unmarshal : list byte -> result pb_Token;
  json_Unmarshal : list byte -> result AuthToken
}.

(* ================================================================== *)
(** ** The host: files, clock, random source *)

(** The calls that reach outside the process, each with the type of its
    answer. *)
Inductive call : Type -> Type :=
| ioutil_ReadFile (filename : string) : call (result (list byte))
| ioutil_WriteFile (filename : string) (data : list byte) (perm : FileMode)
  : call (option error)
| time_Now_UnixNano : call Z
| rand_Reader : call (list byte).

(** A Go computation: it returns, or makes a call and goes on with the
    answer. *)
Inductive Go (A : Type) : Type :=
| Return (a : A)
| Call {X : Type} (c : call X) (k : X -> Go A).
Arguments Return {A} a.
Arguments Call {A X} c k.

Fixpoint bind {A B : Type} (m : Go A) (f : A -> Go B) : Go B :=
  match m with
  | Return a => f a
  | Call c k => Call c (fun x => bind (k x) f)
  end.

Definition perform {X : Type} (c : call X) : Go X := Call c Return.

Declare Scope go_scope.
Delimit Scope go_scope with go.
Notation "x <- m ;; k" := (bind m (fun x => k))
  (at level 61, m at next level, right associativity) : go_scope.
Local Open Scope go_scope.

(** A host answers every call, and may change while doing so. *)
Record Host := {
  World : Type;
  respond : forall X : Type, call X -> World -> X * World
}.

(** One call together with the answer it got. *)
Inductive event : Type :=
| FileRead (filename : string) (answer : result (list byte))
| FileWritten (filename : string) (data : list byte) (perm : FileMode)
    (answer : option error)
| ClockRead (nanos : Z)
| RandomDrawn (bytes : list byte).

Definition Event {X : Type} (c : call X) : X -> event :=
  match c with
  | ioutil_ReadFile filename => FileRead filename
  | ioutil_WriteFile filename data perm => FileWritten filename data perm
  | time_Now_UnixNano => ClockRead
  | rand_Reader => RandomDrawn
  end.

(** Running a computation on a host: the value returned and the world
    left behind. *)
Fixpoint run {A : Type} (h : Host) (m : Go A) (w : World h) : A * World h :=
  match m with
  | Return a => (a, w)
  | Call c k => let (x, w') := respond h _ c w in run h (k x) w'
  end.

(** The calls made during that run, in order. *)
Fixpoint trace {A : Type} (h : Host) (m : Go A) (w : World h) : list event :=
  match m with
  | Return _ => []
  | Call c k => let (x, w') := respond h _ c w in Event c x :: trace h (k x) w'
  end.

(** The value a run returns. *)
Definition returns {A : Type} (h : Host) (m : Go A) (w : World h) : A :=
  fst (run h m w).

(** The calls that change nothing outside the process: reading the clock
    and reading a file. *)
Definition reads_only (e : event) : bool :=
  match e with
  | ClockRead _ | FileRead _ _ => true
  | FileWritten _ _ _ _ | RandomDrawn _ => false
  end.

(** [time.Millisecond], in nanoseconds. *)
Definition time_Millisecond : Z := 1000000.

(** The reading of the host's clock in a world, in milliseconds: Go's
    integer division truncates toward zero. *)
Definition nowMillisOf (h : Host) (w : World h) : Z :=
  fst (respond h _ time_Now_UnixNano w) ÷ time_Millisecond.

(* ================================================================== *)
(** ** token/verifier.go *)

Module verifier.
Section WithLibrary.
Context {L : Library}.

(** [type ecdsaVerifier struct { publicKey *ecdsa.PublicKey }] *)
Record ecdsaVerifier := { publicKey : ecdsa.PublicKey }.

Section NewVerifier.
(** [getPublicKeyFilename] is a helper of the package that the source
    at hand does not include; it is taken as given. *)
Variable getPublicKeyFilename : string -> string.

Definition NewVerifier (dirname : string)
  : Go (option ecdsaVerifier * option error) :=
  let publicKeyFile := getPublicKeyFilename dirname in
  buf <- perform (ioutil_ReadFile publicKeyFile) ;;
  match buf with
  | Err err => Return (None, Some err)
  | Ok buf =>
    match jose_LoadPublicKey buf with
    | Err err => Return (None, Some err)
    | Ok pubKey =>
      match pubKey with
      | EcdsaPublicKey ecdsaPubKey =>
        let v := {| publicKey := ecdsaPubKey |} in
        Return (Some v, None)
      | _ =>
        Return (None, Some (Errorf
          ["Expected the public key to use ECDSA, but got a key of type ";
           typeOfPublic pubKey]))
      end
    end
  end.
End NewVerifier.

(** [func TokenExpired(token *AuthToken) bool] *)
Definition TokenExpired (token : AuthToken) : Go bool :=
  now <- perform time_Now_UnixNano ;;
  let nowMillis := now ÷ time_Millisecond in
  if Expiration token <? nowMillis then Return true else Return false.

(** [func (ev *ecdsaVerifier) Verify(s string) (token *AuthToken, err error)] *)
Definition Verify (ev : ecdsaVerifier) (s : string)
  : Go (option AuthToken * option error) :=
  match jose_ParseSigned s with
  | Err err => Return (None, Some err)
  | Ok jws =>
    match jws_Verify jws (EcdsaPublicKey (publicKey ev)) with
    | Err err => Return (None, Some err)
    | Ok payload =>
      match json_Unmarshal payload with
      | Err err => Return (None, Some err)
      | Ok token =>
        expired <- TokenExpired token ;;
        if (expired : bool)
        then Return (None, Some (Errorf ["token has expired"]))
        else Return (Some token, None)
      end
    end
  end.
End WithLibrary.
End verifier.

(* ================================================================== *)
(** ** The protobuf issuer and verifier (second part of the source) *)

Module issuer.
Section WithLibrary.
Context {L : Library}.

(** [type Verifier struct { publicKey *ecdsa.PublicKey }] *)
Record Verifier := { publicKey : ecdsa.PublicKey }.

(** [type Issuer struct { Verifier; signer jose.Signer; LogTokenIssued
    func(signedToken []byte, unsignedToken *pb.Token) error }]: the
    verifier is embedded, the callback is nil ([None]) or a function. *)
Record Issuer := {
  Issuer_Verifier : Verifier;
  signer : Signer;
  LogTokenIssued : option (list byte -> pb_Token -> Go (option error))
}.

Definition curveName : string := "P-256".
Definition curveJose : SignatureAlgorithm := ES256.
Definition curveEll : elliptic.Curve := elliptic.P256.

(** [func GenerateKeypair(filename string) (err error)].  The source
    hands [rand.Reader] to [ecdsa.GenerateKey]; here the bytes are drawn
    first and handed over. *)
Definition GenerateKeypair (filename : string) : Go (option error) :=
  entropy <- perform rand_Reader ;;
  match ecdsa_GenerateKey curveEll entropy with
  | Err err => Return (Some err)
  | Ok priv =>
    match x509_MarshalECPrivateKey priv with
    | Err err => Return (Some err)
    | Ok keyPEM =>
      err <- perform (ioutil_WriteFile (filename ++ ".priv") keyPEM
                        (octal 6 0 0)) ;;
      match err with
      | Some err => Return (Some err)
      | None =>
        let pub := EcdsaPublicKey (ecdsa.Public priv) in
        match x509_MarshalPKIXPublicKey pub with
        | Err err =>
          Return (Some (Errorf ["Error marshalling public key: "; err]))
        | Ok pubKeyPEM =>
          err <- perform (ioutil_WriteFile (filename ++ ".pub") pubKeyPEM
                            (octal 6 4 4)) ;;
          Return err
        end
      end
    end
  end.

(** [func NewIssuer(filename string) (iss *Issuer, err error)].  The
    error that the curve test assigns is a plain assignment with no
    [return] after it; the next statement, [signer, err :=
    jose.NewSigner(...)], assigns [err] again. *)
Definition NewIssuer (filename : string)
  : Go (option Issuer * option error) :=
  key <- perform (ioutil_ReadFile (filename ++ ".priv")) ;;
  match key with
  | Err err => Return (None, Some err)
  | Ok key =>
    match jose_LoadPrivateKey key with
    | Err err => Return (None, Some err)
    | Ok privateKey =>
      match privateKey with
      | EcdsaPrivateKey ecdsaKey =>
        let err :=
          if negb (elliptic.Name (ecdsa.Curve (ecdsa.Public ecdsaKey))
                   =? curveName)%string
          then Some (Errorf ["expected the key to use "; curveName;
                             ", but it's using ";
                             elliptic.Name
                               (ecdsa.Curve (ecdsa.Public ecdsaKey))])
          else None in
        match jose_NewSigner curveJose privateKey with
        | Err err => Return (None, Some err)
        | Ok signer =>
          let iss := {| Issuer_Verifier :=
                          {| publicKey := ecdsa.Public ecdsaKey |};
                        signer := signer;
                        LogTokenIssued := None |} in
          Return (Some iss, None)
        end
      | _ =>
        Return (None, Some (Errorf
          ["expected an ECDSA private key, but got a key of type ";
           typeOfPrivate privateKey]))
      end
    end
  end.

(** [func (iss *Issuer) Issue(token *pb.Token) (string, error)].  The
    block that calls [iss.LogTokenIssued] is inside a comment in the
    source: the callback is not called.  [iss.signer.Sign] draws its
    nonce from [rand.Reader]. *)
Definition Issue (iss : Issuer) (token : pb_Token)
  : Go (string * option error) :=
  match proto_Marshal token with
  | Err err => Return ("", Some err)
  | Ok tokenBytes =>
    nonce <- perform rand_Reader ;;
    match signer_Sign (signer iss) tokenBytes nonce with
    | Err err => Return ("", Some err)
    | Ok jws =>
      match jws_CompactSerialize jws with
      | Err err => Return ("", Some err)
      | Ok signed => Return (signed, None)
      end
    end
  end.

(** [func NewVerifier(basename string)], returning a pointer to a
    [Verifier] and an error. *)
Definition NewVerifier (basename : string)
  : Go (option Verifier * option error) :=
  buf <- perform (ioutil_ReadFile (basename ++ ".pub")) ;;
  match buf with
  | Err err => Return (None, Some err)
  | Ok buf =>
    match jose_LoadPublicKey buf with
    | Err err => Return (None, Some err)
    | Ok pubKey =>
      match pubKey with
      | EcdsaPublicKey ecdsaPubKey =>
        let v := {| publicKey := ecdsaPubKey |} in
        Return (Some v, None)
      | _ =>
        Return (None, Some (Errorf
          ["Expected the public key to use ECDSA, but got a key of type ";
           typeOfPublic pubKey]))
      end
    end
  end.

(** [func (v *Verifier) Verify(s string) (token *pb.Token, err error)] *)
Definition Verify (v : Verifier) (s : string)
  : Go (option pb_Token * option error) :=
  match jose_ParseSigned s with
  | Err err => Return (None, Some err)
  | Ok jws =>
    match jws_Verify jws (EcdsaPublicKey (publicKey v)) with
    | Err err => Return (None, Some err)
    | Ok payload =>
      match proto_Unmarshal payload with
      | Err err => Return (None, Some err)
      | Ok token => Return (Some token, None)
      end
    end
  end.
End WithLibrary.
End issuer.

(* ================================================================== *)
(** ** A small executable library and host

    A stand-in for the libraries and for the operating system, small
    enough to compute with.  Keys are short numbers, a "signature" is a
    tag of the public key, a token's wire form is its bytes.  It is used
    to run the package's functions on concrete inputs; nothing proved for
    every library depends on it. *)

Module Sample.
Definition byte_of_Z (z : Z) : byte :=
  match Byte.of_N (Z.to_N (z mod 256)) with
  | Some b => b
  | None => x00
  end.

Definition Z_of_byte (b : byte) : Z := Z.of_N (Byte.to_N b).

(** Unsigned little-endian integers on [n] bytes. *)
Fixpoint put_uint (n : nat) (z : Z) : list byte :=
  match n with
  | O => []
  | S n => byte_of_Z z :: put_uint n (z / 256)
  end.

Fixpoint get_uint (bs : list byte) : Z :=
  match bs with
  | [] => 0
  | b :: bs => Z_of_byte b + 256 * get_uint bs
  end.

(** Token payloads: eight bytes of expiration, then the claims. *)
Definition marshal (t : Token) : result (list byte) :=
  if (0 <=? Expiration t) && (Expiration t <? 2 ^ 63)
  then Ok (put_uint 8 (Expiration t) ++ Claims t)%list
  else Err "proto: expiration out of range".

Definition unmarshal (bs : list byte) : result Token :=
  if (List.length bs <? 8)%nat
  then Err "proto: unexpected EOF"
  else Ok {| Expiration := get_uint (firstn 8 bs); Claims := skipn 8 bs |}.

(** Keys. *)
Definition curve_code (c : elliptic.Curve) : byte :=
  match c with
  | elliptic.P224 => x01
  | elliptic.P256 => x02
  | elliptic.P384 => x03
  | elliptic.P521 => x04
  end.

Definition curve_of_code (b : byte) : option elliptic.Curve :=
  match b with
  | x01 => Some elliptic.P224
  | x02 => Some elliptic.P256
  | x03 => Some elliptic.P384
  | x04 => Some elliptic.P521
  | _ => None
  end.

Definition public_of (c : elliptic.Curve) (d : Z) : ecdsa.PublicKey :=
  {| ecdsa.Curve := c; ecdsa.X := 3 * d mod 251; ecdsa.Y := 5 * d mod 251 |}.

Definition generate (c : elliptic.Curve) (entropy : list byte)
  : result ecdsa.PrivateKey :=
  match entropy with
  | [] => Err "EOF"
  | b :: _ =>
    let d := Z_of_byte b + 1 in
    Ok {| ecdsa.Public := public_of c d; ecdsa.D := d |}
  end.

Definition marshal_private (k : ecdsa.PrivateKey) : result (list byte) :=
  Ok [x01; curve_code (ecdsa.Curve (ecdsa.Public k)); byte_of_Z (ecdsa.D k)].

Definition marshal_public (k : crypto_PublicKey) : result (list byte) :=
  match k with
  | EcdsaPublicKey k =>
    Ok [x01; curve_code (ecdsa.Curve k); byte_of_Z (ecdsa.X k);
        byte_of_Z (ecdsa.Y k)]
  | RsaPublicKey k => Ok [x00; byte_of_Z (rsa.N k); byte_of_Z (rsa.E k)]
  end.

Definition load_private (buf : list byte) : result crypto_PrivateKey :=
  match buf with
  | [x01; c; d] =>
    match curve_of_code c with
    | Some c =>
      Ok (EcdsaPrivateKey
            {| ecdsa.Public := public_of c (Z_of_byte d);
               ecdsa.D := Z_of_byte d |})
    | None => Err "square/go-jose: parse error"
    end
  | [x00; n; d] =>
    Ok (RsaPrivateKey
          {| rsa.Public := {| rsa.N := Z_of_byte n; rsa.E := 65537 |};
             rsa.D := Z_of_byte d |})
  | _ => Err "square/go-jose: parse error"
  end.

Definition load_public (buf : list byte) : result crypto_PublicKey :=
  match buf with
  | [x01; c; x; y] =>
    match curve_of_code c with
    | Some c =>
      Ok (EcdsaPublicKey
            {| ecdsa.Curve := c; ecdsa.X := Z_of_byte x;
               ecdsa.Y := Z_of_byte y |})
    | None => Err "square/go-jose: parse error"
    end
  | [x00; n; e] =>
    Ok (RsaPublicKey {| rsa.N := Z_of_byte n; rsa.E := Z_of_byte e |})
  | _ => Err "square/go-jose: parse error"
  end.

(** Signatures.  The header's algorithm is one byte; the signature is
    the tag of the signing key. *)
Definition alg_code (a : SignatureAlgorithm) : byte :=
  if (a =? "ES256")%string then x01
  else if (a =? "ES384")%string then x02
  else if (a =? "ES512")%string then x03
  else x00.

Definition alg_name (b : byte) : SignatureAlgorithm :=
  match b with
  | x01 => "ES256"
  | x02 => "ES384"
  | x03 => "ES512"
  | _ => "none"
  end.

(** The curve an ECDSA algorithm signs on. *)
Definition alg_curve (b : byte) : option elliptic.Curve :=
  match b with
  | x01 => Some elliptic.P256
  | x02 => Some elliptic.P384
  | x03 => Some elliptic.P521
  | _ => None
  end.

Definition key_tag (k : ecdsa.PublicKey) : byte := byte_of_Z (ecdsa.X k).

Record signer := { sigAlg : byte; key : ecdsa.PrivateKey }.

Record jws := { alg : byte; tag : byte; payload : list byte }.

Definition new_signer (a : SignatureAlgorithm) (k : crypto_PrivateKey)
  : result signer :=
  match k, alg_curve (alg_code a) with
  | EcdsaPrivateKey k, Some _ => Ok {| sigAlg := alg_code a; key := k |}
  | _, _ => Err "square/go-jose: unknown/unsupported algorithm"
  end.

Definition same_curve (c : option elliptic.Curve) (d : elliptic.Curve)
  : bool :=
  match c with
  | Some c => Byte.eqb (curve_code c) (curve_code d)
  | None => false
  end.

(** Signing tests the key's size against the algorithm; it needs a
    nonce. *)
Definition sign (sg : signer) (body nonce : list byte) : result jws :=
  if same_curve (alg_curve (sigAlg sg)) (ecdsa.Curve (ecdsa.Public (key sg)))
  then
    match nonce with
    | [] => Err "EOF"
    | _ :: _ =>
      Ok {| alg := sigAlg sg; tag := key_tag (ecdsa.Public (key sg));
            payload := body |}
    end
  else Err "square/go-jose: key size does not match the algorithm".

(** Verification picks the hash by the declared algorithm and tests the
    signature with the key it was handed: it does not compare the
    declared algorithm with the key's curve. *)
Definition verify (j : jws) (k : crypto_PublicKey) : result (list byte) :=
  match k, alg_curve (alg j) with
  | EcdsaPublicKey k, Some _ =>
    if Byte.eqb (tag j) (key_tag k)
    then Ok (payload j)
    else Err "square/go-jose: error in cryptographic primitive"
  | _, _ => Err "square/go-jose: error in cryptographic primitive"
  end.

Definition serialize (j : jws) : result string :=
  Ok (string_of_list_byte (alg j :: tag j :: payload j)).

Definition parse (s : string) : result jws :=
  match list_byte_of_string s with
  | a :: t :: p => Ok {| alg := a; tag := t; payload := p |}
  | _ => Err "square/go-jose: compact JWS format must have three parts"
  end.

#[export] Instance library : Library := {|
  JsonWebSignature := jws;
  Signer := signer;
  ecdsa_GenerateKey := generate;
  x509_MarshalECPrivateKey := marshal_private;
  x509_MarshalPKIXPublicKey := marshal_public;
  jose_LoadPrivateKey := load_private;
  jose_LoadPublicKey := load_public;
  jose_NewSigner := new_signer;
  signer_Sign := sign;
  jws_CompactSerialize := serialize;
  jose_ParseSigned := parse;
  jws_Verify := verify;
  jws_Algorithm := fun j => alg_name (alg j);
  proto_Marshal := marshal;
  proto_Unmarshal := unmarshal;
  json_Unmarshal := unmarshal
|}.

(** The host: a clock, files with their modes, a pool of random bytes. *)
Record world := {
  clock : Z;
  disk : list (string * (list byte * FileMode));
  pool : list byte
}.

Fixpoint lookup (f : string) (d : list (string * (list byte * FileMode)))
  : option (list byte * FileMode) :=
  match d with
  | [] => None
  | (g, x) :: d => if (f =? g)%string then Some x else lookup f d
  end.

(** Writing creates the file with the mode asked for, or replaces the
    contents of a file that exists and keeps its mode; it fails on a file
    whose owner may not write. *)
Definition write (f : string) (data : list byte) (perm : FileMode)
  (w : world) : option error * world :=
  match lookup f (disk w) with
  | None =>
    (None, {| clock := clock w; disk := (f, (data, perm)) :: disk w;
              pool := pool w |})
  | Some (_, mode) =>
    if Z.testbit mode 7
    then (None, {| clock := clock w; disk := (f, (data, mode)) :: disk w;
                   pool := pool w |})
    else (Some ("open " ++ f ++ ": permission denied"), w)
  end.

Definition answer (X : Type) (c : call X) (w : world) : X * world :=
  match c in call X return X * world with
  | ioutil_ReadFile f =>
    match lookup f (disk w) with
    | Some (data, _) => (Ok data, w)
    | None => (Err ("open " ++ f ++ ": no such file or directory"), w)
    end
  | ioutil_WriteFile f data perm => write f data perm w
  | time_Now_UnixNano => (clock w, w)
  | rand_Reader =>
    (firstn 32 (pool w),
     {| clock := clock w; disk := disk w; pool := skipn 32 (pool w) |})
  end.

Definition host : Host := {| World := world; respond := answer |}.
End Sample.

(* ================================================================== *)
(** ** Sample data *)

Module Demo.
Import Sample.

(** A P-256 key pair, a P-384 key pair and an RSA key, as key files. *)
Definition p256 : ecdsa.PrivateKey :=
  {| ecdsa.Public := public_of elliptic.P256 8; ecdsa.D := 8 |}.

Definition p384 : ecdsa.PrivateKey :=
  {| ecdsa.Public := public_of elliptic.P384 9; ecdsa.D := 9 |}.

Definition files : list (string * (list byte * FileMode)) :=
  [("k.priv", ([x01; x02; x08], octal 6 0 0));
   ("k.pub", ([x01; x02; x18; x28], octal 6 4 4));
   ("big.priv", ([x01; x03; x09], octal 6 0 0));
   ("big.pub", ([x01; x03; x1b; x2d], octal 6 4 4));
   ("rsa.priv", ([x00; x21; x05], octal 6 0 0));
   ("rsa.pub", ([x00; x21; x03], octal 6 4 4));
   ("locked.priv", ([], octal 4 0 0))].

(** 14 November 2023, 22:13:20 UTC, in nanoseconds. *)
Definition noon : Z := 1700000000000 * time_Millisecond.

Definition world0 : world :=
  {| clock := noon; disk := files; pool := [x07; x2a; x63] |}.

(** A world whose random source is exhausted. *)
Definition drained : world := {| clock := noon; disk := files; pool := [] |}.

(** A token that expires one minute later. *)
Definition alice : Token :=
  {| Expiration := 1700000060000;
     Claims := list_byte_of_string "alice" |}.

(** A token whose expiration is the current millisecond, and one that
    expired a millisecond before. *)
Definition on_time : Token :=
  {| Expiration := 1700000000000; Claims := list_byte_of_string "bob" |}.

Definition late : Token :=
  {| Expiration := 1699999999999; Claims := list_byte_of_string "bob" |}.

Definition issuer0 : issuer.Issuer :=
  {| issuer.Issuer_Verifier := {| issuer.publicKey := ecdsa.Public p256 |};
     issuer.signer := {| sigAlg := x01; key := p256 |};
     issuer.LogTokenIssued := None |}.

(** An observer that reports a failure every time. *)
Definition failing_log (signedToken : list byte) (unsignedToken : pb_Token)
  : Go (option error) :=
  Return (Some "audit log unavailable").

Definition observed_issuer : issuer.Issuer :=
  {| issuer.Issuer_Verifier := issuer.Issuer_Verifier issuer0;
     issuer.signer := issuer.signer issuer0;
     issuer.LogTokenIssued := Some failing_log |}.

(** The wire form of a token under the P-256 key, with the algorithm byte
    of the header chosen freely. *)
Definition wire (a : SignatureAlgorithm) (t : Token) : string :=
  string_of_list_byte
    (alg_code a :: key_tag (ecdsa.Public p256)
       :: put_uint 8 (Expiration t) ++ Claims t)%list.

Definition verifier0 : verifier.ecdsaVerifier :=
  {| verifier.publicKey := ecdsa.Public p256 |}.

Definition pb_verifier0 : issuer.Verifier :=
  {| issuer.publicKey := ecdsa.Public p256 |}.

(** Where [getPublicKeyFilename] is needed: the key's name in a
    directory. *)
Definition public_key_in (dirname : string) : string := dirname ++ ".pub".
End Demo.

(* ================================================================== *)
(** ** Vocabulary of the properties *)

(** What the round trip of a token relies on from the libraries: a token
    signed by a signer made from an ECDSA private key, once serialized,
    parses and verifies under that key's public key to the signed bytes;
    and protobuf decoding inverts protobuf encoding. *)
Class LibraryLaws (L : Library) : Prop := {
  signed_token_verifies :
    forall a k sg body nonce jws s,
      jose_NewSigner a (EcdsaPrivateKey k) = Ok sg ->
      signer_Sign sg body nonce = Ok jws ->
      jws_CompactSerialize jws = Ok s ->
      exists jws',
        jose_ParseSigned s = Ok jws'
        /\ jws_Verify jws' (EcdsaPublicKey (ecdsa.Public k)) = Ok body;
  marshal_then_unmarshal :
    forall t bs, proto_Marshal t = Ok bs -> proto_Unmarshal bs = Ok t
}.

Section Stages.
Context {L : Library}.
Variable unmarshal : list byte -> result Token.

(** The stages of [Verify] that come before any expiration policy, for
    the key of a verifier: parsing, the signature, decoding with
    [unmarshal]. *)
Definition decodes (k : ecdsa.PublicKey) (s : string) (token : Token)
  : Prop :=
  exists jws payload,
    jose_ParseSigned s = Ok jws
    /\ jws_Verify jws (EcdsaPublicKey k) = Ok payload
    /\ unmarshal payload = Ok token.

(** One of those stages fails with [e]. *)
Definition rejects (k : ecdsa.PublicKey) (s : string) (e : error) : Prop :=
  jose_ParseSigned s = Err e
  \/ (exists jws,
        jose_ParseSigned s = Ok jws
        /\ jws_Verify jws (EcdsaPublicKey k) = Err e)
  \/ (exists jws payload,
        jose_ParseSigned s = Ok jws
        /\ jws_Verify jws (EcdsaPublicKey k) = Ok payload
        /\ unmarshal payload = Err e).
End Stages.

(** The modes [GenerateKeypair] asks for: the private key's gives the
    owner read and write and nobody else anything; the public key's lets
    everybody read. *)
Definition owner_only (m : FileMode) : bool :=
  Z.testbit m 8 && Z.testbit m 7 && (Z.land m 63 =? 0).

Definition world_readable (m : FileMode) : bool :=
  Z.testbit m 8 && Z.testbit m 5 && Z.testbit m 2.

Section KeypairOutcomes.
Context {L : Library}.

(** [GenerateKeypair] succeeded: the calls it made are the drawing of the
    entropy and the two writes, both answered with a nil error. *)
Definition keypair_written (filename : string) (calls : list event) : Prop :=
  exists entropy priv keyPEM pubKeyPEM,
    ecdsa_GenerateKey issuer.curveEll entropy = Ok priv
    /\ x509_MarshalECPrivateKey priv = Ok keyPEM
    /\ x509_MarshalPKIXPublicKey (EcdsaPublicKey (ecdsa.Public priv))
       = Ok pubKeyPEM
    /\ calls
       = [RandomDrawn entropy;
          FileWritten (filename ++ ".priv") keyPEM (octal 6 0 0) None;
          FileWritten (filename ++ ".pub") pubKeyPEM (octal 6 4 4) None].

(** The ways [GenerateKeypair] fails with the error [e], each with the
    calls made up to the failure. *)
Inductive keypair_failure (filename : string) (calls : list event)
  (e : error) : Prop :=
| generation_failed (entropy : list byte) :
    ecdsa_GenerateKey issuer.curveEll entropy = Err e ->
    calls = [RandomDrawn entropy] ->
    keypair_failure filename calls e
| private_encoding_failed (entropy : list byte) (priv : ecdsa.PrivateKey) :
    ecdsa_GenerateKey issuer.curveEll entropy = Ok priv ->
    x509_MarshalECPrivateKey priv = Err e ->
    calls = [RandomDrawn entropy] ->
    keypair_failure filename calls e
| private_write_failed (entropy keyPEM : list byte) :
    calls
    = [RandomDrawn entropy;
       FileWritten (filename ++ ".priv") keyPEM (octal 6 0 0) (Some e)] ->
    keypair_failure filename calls e
| public_encoding_failed (entropy keyPEM : list byte)
    (priv : ecdsa.PrivateKey) (cause : error) :
    ecdsa_GenerateKey issuer.curveEll entropy = Ok priv ->
    x509_MarshalPKIXPublicKey (EcdsaPublicKey (ecdsa.Public priv))
    = Err cause ->
    e = Errorf ["Error marshalling public key: "; cause] ->
    calls
    = [RandomDrawn entropy;
       FileWritten (filename ++ ".priv") keyPEM (octal 6 0 0) None] ->
    keypair_failure filename calls e
| public_write_failed (entropy keyPEM pubKeyPEM : list byte) :
    calls
    = [RandomDrawn entropy;
       FileWritten (filename ++ ".priv") keyPEM (octal 6 0 0) None;
       FileWritten (filename ++ ".pub") pubKeyPEM (octal 6 4 4) (Some e)] ->
    keypair_failure filename calls e.
End KeypairOutcomes.

(* ================================================================== *)
(** ** Hosts that keep their files, keys that load back *)

(** A host keeps its files when a file written with success reads back
    as written, and writing one file, with success or not, leaves what
    the other files read as. *)
Record KeepsFiles (h : Host) : Prop := {
  read_after_write :
    forall (f : string) (data : list byte) (perm : FileMode) (w : World h),
      fst (respond h _ (ioutil_WriteFile f data perm) w) = None ->
      fst (respond h _ (ioutil_ReadFile f)
             (snd (respond h _ (ioutil_WriteFile f data perm) w)))
      = Ok data;
  write_keeps_others :
    forall (f g : string) (data : list byte) (perm : FileMode) (w : World h),
      f <> g ->
      fst (respond h _ (ioutil_ReadFile g)
             (snd (respond h _ (ioutil_WriteFile f data perm) w)))
      = fst (respond h _ (ioutil_ReadFile g) w)
}.

Section KeyEncodings.
Context {L : Library}.

(** The two encodings [GenerateKeypair] writes for the key [priv] decode
    back to that key and to its public half. *)
Definition encodings_load (priv : ecdsa.PrivateKey) : Prop :=
  (forall keyPEM,
     x509_MarshalECPrivateKey priv = Ok keyPEM ->
     jose_LoadPrivateKey keyPEM = Ok (EcdsaPrivateKey priv))
  /\ (forall pubKeyPEM,
        x509_MarshalPKIXPublicKey (EcdsaPublicKey (ecdsa.Public priv))
        = Ok pubKeyPEM ->
        jose_LoadPublicKey pubKeyPEM
        = Ok (EcdsaPublicKey (ecdsa.Public priv))).
End KeyEncodings.

(** Further sample worlds. *)
Module Cases.
Import Sample.

(** The sample files at a chosen time. *)
Definition world_at (nanos : Z) : world :=
  {| clock := nanos; disk := Demo.files; pool := [x07; x2a; x63] |}.


(** An empty disk. *)
Definition bare : world :=
  {| clock := Demo.noon; disk := []; pool := [x07; x2a; x63] |}.

(** A key file that is no key. *)
Definition garbled : world :=
  {| clock := Demo.noon;
     disk := [("junk.priv", ([xff], octal 6 0 0));
              ("junk.pub", ([xff], octal 6 4 4))];
     pool := [] |}.
(** What reading a file answers on a disk. *)
Definition read_of (f : string)
  (d : list (string * (list byte * FileMode))) : result (list byte) :=
  match lookup f d with
  | Some (data, _) => Ok data
  | None => Err ("open " ++ f ++ ": no such file or directory")
  end.
End Cases.
(* ================================================================== *)
(** ** Running sequenced computations *)

Section Running.
Context (h : Host).

Lemma run_bind {A B : Type} (m : Go A) (f : A -> Go B) (w : World h) :
  run h (bind m f) w = run h (f (fst (run h m w))) (snd (run h m w)).
Proof.
  revert w; induction m as [a | X c k IH]; intro w; simpl.
  - reflexivity.
  - destruct (respond h X c w) as [x w']. apply IH.
Qed.

Lemma trace_bind {A B : Type} (m : Go A) (f : A -> Go B) (w : World h) :
  trace h (bind m f) w
  = (trace h m w
     ++ trace h (f (fst (run h m w))) (snd (run h m w)))%list.
Proof.
  revert w; induction m as [a | X c k IH]; intro w; simpl.
  - reflexivity.
  - destruct (respond h X c w) as [x w']. simpl. f_equal. apply IH.
Qed.

Lemma returns_perform {X : Type} (c : call X) (w : World h) :
  returns h (perform c) w = fst (respond h X c w).
Proof.
  unfold returns, perform; simpl. now destruct (respond h X c w).
Qed.
End Running.

(* ================================================================== *)
(** ** The expiration policy *)

Section Expiration.
Context {L : Library}.

(** [TokenExpired] reads the clock once and changes nothing else. *)
Lemma TokenExpired_trace (h : Host) (w : World h) (token : AuthToken) :
  trace h (verifier.TokenExpired token) w
  = [ClockRead (fst (respond h Z time_Now_UnixNano w))].
Proof.
  unfold verifier.TokenExpired; simpl.
  destruct (respond h Z time_Now_UnixNano w) as [now w']; simpl.
  now destruct (Expiration token <? now ÷ time_Millisecond).
Qed.

Lemma TokenExpired_returns (h : Host) (w : World h) (token : AuthToken) :
  returns h (verifier.TokenExpired token) w
  = (Expiration token <? nowMillisOf h w).
Proof.
  unfold returns, nowMillisOf, verifier.TokenExpired; simpl.
  destruct (respond h Z time_Now_UnixNano w) as [now w']; simpl.
  now destruct (Expiration token <? now ÷ time_Millisecond).
Qed.

(** C2.  A token is judged expired exactly when its expiration is
    strictly less than the current time in milliseconds: a token whose
    expiration equals the current time is not expired, and one whose
    expiration is one millisecond earlier is. *)
Theorem TokenExpired_iff_strictly_before_now
  (h : Host) (w : World h) (token : AuthToken) :
  let now := nowMillisOf h w in
  (returns h (verifier.TokenExpired token) w = true
   <-> Expiration token < now)
  /\ (Expiration token = now
      -> returns h (verifier.TokenExpired token) w = false)
  /\ (Expiration token = now - 1
      -> returns h (verifier.TokenExpired token) w = true).
Proof.
  intro now. rewrite TokenExpired_returns. fold now.
  repeat split.
  - apply Z.ltb_lt.
  - apply Z.ltb_lt.
  - intro E. apply Z.ltb_ge. lia.
  - intro E. apply Z.ltb_lt. lia.
Qed.
End Expiration.

(* ================================================================== *)
(** ** Verification *)

Section Verification.
Context {L : Library}.

Lemma decodes_or_rejects (unmarshal : list byte -> result Token)
  (k : ecdsa.PublicKey) (s : string) :
  (exists token, decodes unmarshal k s token)
  \/ (exists e, rejects unmarshal k s e).
Proof.
  unfold decodes, rejects.
  destruct (jose_ParseSigned s) as [jws | e] eqn:P.
  2: { right; exists e; now left. }
  destruct (jws_Verify jws (EcdsaPublicKey k)) as [payload | e] eqn:V.
  2: { right; exists e; right; left; exists jws; split;
       first [reflexivity | assumption]. }
  destruct (unmarshal payload) as [token | e] eqn:U.
  - left; exists token, jws, payload;
      repeat split; first [reflexivity | assumption].
  - right; exists e; right; right; exists jws, payload;
      repeat split; first [reflexivity | assumption].
Qed.

Lemma decodes_not_rejects (unmarshal : list byte -> result Token)
  (k : ecdsa.PublicKey) (s : string) (token : Token) (e : error) :
  decodes unmarshal k s token -> rejects unmarshal k s e -> False.
Proof.
  intros (jws & payload & P & V & U)
         [P' | [(j & P' & V') | (j & p & P' & V' & U')]];
    congruence.
Qed.

(** *** The verifier of [token/verifier.go] *)

Lemma Verify_rejects (ev : verifier.ecdsaVerifier) (s : string) (e : error) :
  rejects json_Unmarshal (verifier.publicKey ev) s e ->
  verifier.Verify ev s = Return (None, Some e).
Proof.
  unfold verifier.Verify.
  intros [P | [(j & P & V) | (j & p & P & V & U)]].
  - now rewrite P.
  - now rewrite P, V.
  - now rewrite P, V, U.
Qed.

Lemma Verify_decodes (ev : verifier.ecdsaVerifier) (s : string)
  (token : AuthToken) :
  decodes json_Unmarshal (verifier.publicKey ev) s token ->
  verifier.Verify ev s
  = (expired <- verifier.TokenExpired token ;;
     if (expired : bool)
     then Return (None, Some (Errorf ["token has expired"]))
     else Return (Some token, None))%go.
Proof.
  unfold verifier.Verify. intros (j & p & P & V & U). now rewrite P, V, U.
Qed.

Lemma Verify_decodes_returns (h : Host) (w : World h)
  (ev : verifier.ecdsaVerifier) (s : string) (token : AuthToken) :
  decodes json_Unmarshal (verifier.publicKey ev) s token ->
  returns h (verifier.Verify ev s) w
  = if Expiration token <? nowMillisOf h w
    then (None, Some "token has expired")
    else (Some token, None).
Proof.
  intro Hd. rewrite (Verify_decodes _ _ _ Hd).
  unfold returns. rewrite run_bind.
  change (fst (run h (verifier.TokenExpired token) w))
    with (returns h (verifier.TokenExpired token) w).
  rewrite TokenExpired_returns.
  now destruct (Expiration token <? nowMillisOf h w).
Qed.

Lemma Verify_decodes_trace (h : Host) (w : World h)
  (ev : verifier.ecdsaVerifier) (s : string) (token : AuthToken) :
  decodes json_Unmarshal (verifier.publicKey ev) s token ->
  trace h (verifier.Verify ev s) w
  = [ClockRead (fst (respond h Z time_Now_UnixNano w))].
Proof.
  intro Hd. rewrite (Verify_decodes _ _ _ Hd).
  rewrite trace_bind, TokenExpired_trace.
  now destruct (fst (run h (verifier.TokenExpired token) w)).
Qed.

Lemma Verify_decodes_world (h : Host) (w : World h)
  (ev : verifier.ecdsaVerifier) (s : string) (token : AuthToken) :
  decodes json_Unmarshal (verifier.publicKey ev) s token ->
  snd (run h (verifier.Verify ev s) w)
  = snd (respond h Z time_Now_UnixNano w).
Proof.
  intro Hd. rewrite (Verify_decodes _ _ _ Hd). rewrite run_bind.
  unfold verifier.TokenExpired; simpl.
  destruct (respond h Z time_Now_UnixNano w) as [now w']; simpl.
  now destruct (Expiration token <? now ÷ time_Millisecond).
Qed.

(** *** The protobuf verifier *)

Lemma pb_Verify_rejects (v : issuer.Verifier) (s : string) (e : error) :
  rejects proto_Unmarshal (issuer.publicKey v) s e ->
  issuer.Verify v s = Return (None, Some e).
Proof.
  unfold issuer.Verify.
  intros [P | [(j & P & V) | (j & p & P & V & U)]].
  - now rewrite P.
  - now rewrite P, V.
  - now rewrite P, V, U.
Qed.

Lemma pb_Verify_decodes (v : issuer.Verifier) (s : string)
  (token : pb_Token) :
  decodes proto_Unmarshal (issuer.publicKey v) s token ->
  issuer.Verify v s = Return (Some token, None).
Proof.
  unfold issuer.Verify. intros (j & p & P & V & U). now rewrite P, V, U.
Qed.

(** The protobuf verifier makes no call at all: whatever the clock says,
    it returns the token decoded from a well-signed payload. *)
Lemma pb_Verify_makes_no_call (v : issuer.Verifier) (s : string) :
  exists out, issuer.Verify v s = Return out.
Proof.
  destruct (decodes_or_rejects proto_Unmarshal (issuer.publicKey v) s)
    as [[t Hd] | [e Hr]].
  - rewrite (pb_Verify_decodes _ _ _ Hd). eauto.
  - rewrite (pb_Verify_rejects _ _ _ Hr). eauto.
Qed.

(** The verifier of [token/verifier.go] evaluates the expiration policy
    after parsing, the signature and decoding have succeeded: a failure
    of one of these is returned before the clock is read; an expired
    decoded token gives the error "token has expired"; and a token is
    returned only when all four stages pass, in which case it is the
    decoded token. *)
Theorem Verify_evaluates_expiration_last
  (h : Host) (w : World h) (ev : verifier.ecdsaVerifier) (s : string) :
  let k := verifier.publicKey ev in
  let out := returns h (verifier.Verify ev s) w in
  let now := nowMillisOf h w in
  (forall e, rejects json_Unmarshal k s e ->
     out = (None, Some e) /\ trace h (verifier.Verify ev s) w = [])
  /\ (forall token, decodes json_Unmarshal k s token ->
        trace h (verifier.Verify ev s) w
        = [ClockRead (fst (respond h Z time_Now_UnixNano w))])
  /\ (forall token, decodes json_Unmarshal k s token ->
        Expiration token < now ->
        out = (None, Some "token has expired"))
  /\ (forall token, decodes json_Unmarshal k s token ->
        now <= Expiration token ->
        out = (Some token, None))
  /\ (forall token, fst out = Some token ->
        decodes json_Unmarshal k s token
        /\ now <= Expiration token /\ snd out = None).
Proof.
  intros k out now. subst k out now.
  split; [ | split; [ | split; [ | split ] ] ].
  - intros e Hr. now rewrite (Verify_rejects _ _ _ Hr).
  - intros token Hd. exact (Verify_decodes_trace h w ev s token Hd).
  - intros token Hd Hlt. rewrite (Verify_decodes_returns _ _ _ _ _ Hd).
    apply Z.ltb_lt in Hlt. now rewrite Hlt.
  - intros token Hd Hle. rewrite (Verify_decodes_returns _ _ _ _ _ Hd).
    apply Z.ltb_ge in Hle. now rewrite Hle.
  - intros token Hout.
    destruct (decodes_or_rejects json_Unmarshal (verifier.publicKey ev) s)
      as [[t Hd] | [e Hr]].
    + rewrite (Verify_decodes_returns _ _ _ _ _ Hd) in *.
      destruct (Z.ltb_spec (Expiration t) (nowMillisOf h w)) as [Hlt | Hle];
        simpl in Hout; [ discriminate | ].
      injection Hout as <-. auto.
    + rewrite (Verify_rejects _ _ _ Hr) in Hout. discriminate.
Qed.

(** C3, as the code has it.  Of the two [Verify] functions, the one of
    [token/verifier.go] evaluates the expiration policy, and does so
    after parsing, the signature and decoding have succeeded: it fails
    with "token has expired" when the decoded token is expired and
    returns the decoded token only when all four stages pass.  The
    protobuf [Verify] has no expiration stage: it never reads the clock,
    returns the error of the stage that fails, and returns the decoded
    token exactly when parsing, the signature and decoding pass,
    whatever the token's expiration. *)
Theorem Verify_evaluates_expiration_in_one_verifier_only
  (h : Host) (w : World h)
  (ev : verifier.ecdsaVerifier) (v : issuer.Verifier) (s : string) :
  let k := verifier.publicKey ev in
  let out := returns h (verifier.Verify ev s) w in
  let pb_out := returns h (issuer.Verify v s) w in
  let now := nowMillisOf h w in
  ((forall e, rejects json_Unmarshal k s e ->
      out = (None, Some e) /\ trace h (verifier.Verify ev s) w = [])
   /\ (forall token, decodes json_Unmarshal k s token ->
         trace h (verifier.Verify ev s) w
         = [ClockRead (fst (respond h Z time_Now_UnixNano w))])
   /\ (forall token, decodes json_Unmarshal k s token ->
         Expiration token < now ->
         out = (None, Some "token has expired"))
   /\ (forall token, decodes json_Unmarshal k s token ->
         now <= Expiration token ->
         out = (Some token, None))
   /\ (forall token, fst out = Some token ->
         decodes json_Unmarshal k s token
         /\ now <= Expiration token /\ snd out = None))
  /\ ((forall e, rejects proto_Unmarshal (issuer.publicKey v) s e ->
         pb_out = (None, Some e))
      /\ (forall token,
            decodes proto_Unmarshal (issuer.publicKey v) s token ->
            pb_out = (Some token, None))
      /\ (forall token, fst pb_out = Some token ->
            decodes proto_Unmarshal (issuer.publicKey v) s token
            /\ snd pb_out = None)
      /\ trace h (issuer.Verify v s) w = []).
Proof.
  intros k out pb_out now. subst k out pb_out now. split.
  - exact (Verify_evaluates_expiration_last h w ev s).
  - split; [ | split; [ | split ] ].
    + intros e Hr. now rewrite (pb_Verify_rejects _ _ _ Hr).
    + intros token Hd. now rewrite (pb_Verify_decodes _ _ _ Hd).
    + intros token Hout.
      destruct (decodes_or_rejects proto_Unmarshal (issuer.publicKey v) s)
        as [[t Hd] | [e Hr]].
      * rewrite (pb_Verify_decodes _ _ _ Hd) in *. simpl in Hout.
        injection Hout as <-. auto.
      * rewrite (pb_Verify_rejects _ _ _ Hr) in Hout. discriminate.
    + destruct (pb_Verify_makes_no_call v s) as [r ->]. reflexivity.
Qed.

(** C10.  Whenever [Verify] returns a non-nil error, the token it returns
    is nil; this holds for the verifier of [token/verifier.go] and for
    the protobuf verifier. *)
Theorem Verify_error_comes_with_nil_token
  (h : Host) (w : World h)
  (ev : verifier.ecdsaVerifier) (v : issuer.Verifier) (s : string) :
  (forall e, snd (returns h (verifier.Verify ev s) w) = Some e ->
     fst (returns h (verifier.Verify ev s) w) = None)
  /\ (forall e, snd (returns h (issuer.Verify v s) w) = Some e ->
        fst (returns h (issuer.Verify v s) w) = None).
Proof.
  split; intros e He.
  - destruct (decodes_or_rejects json_Unmarshal (verifier.publicKey ev) s)
      as [[t Hd] | [e' Hr]].
    + rewrite (Verify_decodes_returns _ _ _ _ _ Hd) in *.
      destruct (Expiration t <? nowMillisOf h w); simpl in *;
        [ reflexivity | discriminate ].
    + now rewrite (Verify_rejects _ _ _ Hr).
  - destruct (decodes_or_rejects proto_Unmarshal (issuer.publicKey v) s)
      as [[t Hd] | [e' Hr]].
    + rewrite (pb_Verify_decodes _ _ _ Hd) in He. discriminate.
    + now rewrite (pb_Verify_rejects _ _ _ Hr).
Qed.

(** C9.  [Verify] is a function of the wire string, the stored public
    key and the current time: on any two hosts whose clocks read the same
    time it returns the same result; the only call it makes is a reading
    of the clock, so it writes nothing and leaves the world as reading
    the clock leaves it.  The protobuf verifier makes no call at all. *)
Theorem Verify_depends_on_string_key_and_time_only
  (ev : verifier.ecdsaVerifier) (v : issuer.Verifier) (s : string) :
  (forall (h1 h2 : Host) (w1 : World h1) (w2 : World h2),
     nowMillisOf h1 w1 = nowMillisOf h2 w2 ->
     returns h1 (verifier.Verify ev s) w1
     = returns h2 (verifier.Verify ev s) w2)
  /\ (forall (h : Host) (w : World h),
        forallb reads_only (trace h (verifier.Verify ev s) w) = true
        /\ (snd (run h (verifier.Verify ev s) w) = w
            \/ snd (run h (verifier.Verify ev s) w)
               = snd (respond h Z time_Now_UnixNano w)))
  /\ (forall (h1 h2 : Host) (w1 : World h1) (w2 : World h2),
        returns h1 (issuer.Verify v s) w1 = returns h2 (issuer.Verify v s) w2)
  /\ (forall (h : Host) (w : World h),
        trace h (issuer.Verify v s) w = []
        /\ snd (run h (issuer.Verify v s) w) = w).
Proof.
  split; [ | split; [ | split ] ].
  - intros h1 h2 w1 w2 Hnow.
    destruct (decodes_or_rejects json_Unmarshal (verifier.publicKey ev) s)
      as [[t Hd] | [e Hr]].
    + rewrite !(Verify_decodes_returns _ _ _ _ _ Hd). now rewrite Hnow.
    + now rewrite (Verify_rejects _ _ _ Hr).
  - intros h w.
    destruct (decodes_or_rejects json_Unmarshal (verifier.publicKey ev) s)
      as [[t Hd] | [e Hr]].
    + rewrite (Verify_decodes_trace _ _ _ _ _ Hd).
      rewrite (Verify_decodes_world _ _ _ _ _ Hd). auto.
    + rewrite (Verify_rejects _ _ _ Hr). simpl. auto.
  - intros h1 h2 w1 w2.
    destruct (pb_Verify_makes_no_call v s) as [out ->]. reflexivity.
  - intros h w.
    destruct (pb_Verify_makes_no_call v s) as [out ->]. auto.
Qed.
End Verification.

(* ================================================================== *)
(** ** The declared algorithm *)

Section Algorithm.
Context {L : Library}.

(** C5, as the code has it.  For a wire string whose header declares an
    algorithm other than ES256, [Verify] does what it does for any other:
    it hands the parsed token and the stored public key to the library.
    If the library rejects the signature, that error is returned with no
    token; if the library accepts it, the outcome is that of decoding (and,
    in [token/verifier.go], of the expiration policy).  [Verify] compares
    the declared algorithm with nothing. *)
Theorem Verify_leaves_the_algorithm_to_the_library
  (h : Host) (w : World h)
  (ev : verifier.ecdsaVerifier) (v : issuer.Verifier)
  (s : string) (jws : JsonWebSignature) :
  jose_ParseSigned s = Ok jws ->
  jws_Algorithm jws <> ES256 ->
  (forall e,
     jws_Verify jws (EcdsaPublicKey (verifier.publicKey ev)) = Err e ->
     returns h (verifier.Verify ev s) w = (None, Some e))
  /\ (forall payload,
        jws_Verify jws (EcdsaPublicKey (verifier.publicKey ev)) = Ok payload ->
        returns h (verifier.Verify ev s) w
        = match json_Unmarshal payload with
          | Err e => (None, Some e)
          | Ok token =>
            if Expiration token <? nowMillisOf h w
            then (None, Some "token has expired")
            else (Some token, None)
          end)
  /\ (forall e,
        jws_Verify jws (EcdsaPublicKey (issuer.publicKey v)) = Err e ->
        returns h (issuer.Verify v s) w = (None, Some e))
  /\ (forall payload,
        jws_Verify jws (EcdsaPublicKey (issuer.publicKey v)) = Ok payload ->
        returns h (issuer.Verify v s) w
        = match proto_Unmarshal payload with
          | Err e => (None, Some e)
          | Ok token => (Some token, None)
          end).
Proof.
  intros P _. split; [ | split; [ | split ] ].
  - intros e V. rewrite (Verify_rejects ev s e); [ reflexivity | ].
    right; left; exists jws; auto.
  - intros payload V.
    destruct (json_Unmarshal payload) as [token | e] eqn:U.
    + apply Verify_decodes_returns. exists jws, payload; auto.
    + rewrite (Verify_rejects ev s e); [ reflexivity | ].
      right; right; exists jws, payload; auto.
  - intros e V. rewrite (pb_Verify_rejects v s e); [ reflexivity | ].
    right; left; exists jws; auto.
  - intros payload V.
    destruct (proto_Unmarshal payload) as [token | e] eqn:U.
    + rewrite (pb_Verify_decodes v s token); [ reflexivity | ].
      exists jws, payload; auto.
    + rewrite (pb_Verify_rejects v s e); [ reflexivity | ].
      right; right; exists jws, payload; auto.
Qed.
End Algorithm.

(* ================================================================== *)
(** ** Issuing *)

Section Issuing.
Context {L : Library}.

(** What [NewIssuer] has done when it returns an issuer. *)
Lemma NewIssuer_returns_issuer (h : Host) (w : World h) (filename : string)
  (iss : issuer.Issuer) (err : option error) :
  returns h (issuer.NewIssuer filename) w = (Some iss, err) ->
  exists key k,
    fst (respond h _ (ioutil_ReadFile (filename ++ ".priv")) w) = Ok key
    /\ jose_LoadPrivateKey key = Ok (EcdsaPrivateKey k)
    /\ jose_NewSigner issuer.curveJose (EcdsaPrivateKey k)
       = Ok (issuer.signer iss)
    /\ issuer.Issuer_Verifier iss = {| issuer.publicKey := ecdsa.Public k |}
    /\ issuer.LogTokenIssued iss = None
    /\ err = None.
Proof.
  unfold returns, issuer.NewIssuer; simpl.
  destruct (respond h _ (ioutil_ReadFile (filename ++ ".priv")) w)
    as [[key | e] w']; simpl; [ | discriminate ].
  destruct (jose_LoadPrivateKey key) as [[k | k] | e] eqn:Hload; simpl;
    try discriminate.
  destruct (jose_NewSigner issuer.curveJose (EcdsaPrivateKey k))
    as [sg | e] eqn:Hsg; simpl; [ | discriminate ].
  intro E; injection E as <- <-.
  exists key, k. simpl. auto 10.
Qed.

(** What [Issue] has done when it returns no error. *)
Lemma Issue_returns_token (h : Host) (w : World h) (iss : issuer.Issuer)
  (token : pb_Token) (signed : string) :
  returns h (issuer.Issue iss token) w = (signed, None) ->
  exists tokenBytes jws,
    proto_Marshal token = Ok tokenBytes
    /\ signer_Sign (issuer.signer iss) tokenBytes
         (fst (respond h _ rand_Reader w)) = Ok jws
    /\ jws_CompactSerialize jws = Ok signed.
Proof.
  unfold returns, issuer.Issue.
  destruct (proto_Marshal token) as [tokenBytes | e]; simpl;
    [ | discriminate ].
  destruct (respond h _ rand_Reader w) as [nonce w']; simpl.
  destruct (signer_Sign (issuer.signer iss) tokenBytes nonce)
    as [jws | e] eqn:Hsign; simpl; [ | discriminate ].
  destruct (jws_CompactSerialize jws) as [s | e] eqn:Hser; simpl;
    [ | discriminate ].
  intro E; injection E as <-. eauto.
Qed.

(** The protobuf verifier returns every token issued under its key,
    whatever the token's expiration and whatever the time. *)
Lemma Issue_then_Verify {Laws : LibraryLaws L}
  (h : Host) (w0 w1 : World h) (h' : Host) (w2 : World h')
  (filename : string) (iss : issuer.Issuer) (v : issuer.Verifier)
  (t : pb_Token) (s : string) :
  returns h (issuer.NewIssuer filename) w0 = (Some iss, None) ->
  issuer.publicKey v = issuer.publicKey (issuer.Issuer_Verifier iss) ->
  returns h (issuer.Issue iss t) w1 = (s, None) ->
  returns h' (issuer.Verify v s) w2 = (Some t, None).
Proof.
  intros Hnew Hkey Hissue.
  destruct (NewIssuer_returns_issuer _ _ _ _ _ Hnew)
    as (key & k & _ & _ & Hsg & Hv & _ & _).
  destruct (Issue_returns_token _ _ _ _ _ Hissue)
    as (body & jws & Hm & Hsign & Hser).
  destruct (signed_token_verifies _ _ _ _ _ _ _ Hsg Hsign Hser)
    as (jws' & Hparse & Hverify).
  rewrite (pb_Verify_decodes v s t); [ reflexivity | ].
  exists jws', body. rewrite Hkey, Hv; simpl.
  repeat split; auto using marshal_then_unmarshal.
Qed.

(** C1.  A token [t] whose expiration is later than the current time,
    issued by an issuer that [NewIssuer] built, verifies under a verifier
    holding the issuer's public key, and the token returned is [t], every
    field of it.  (The libraries are taken to sign and verify, and to
    encode and decode, consistently: [LibraryLaws].) *)
Theorem Verify_of_Issue_returns_the_token {Laws : LibraryLaws L}
  (h : Host) (w0 w1 : World h) (h' : Host) (w2 : World h')
  (filename : string) (iss : issuer.Issuer) (v : issuer.Verifier)
  (t : pb_Token) (s : string) :
  returns h (issuer.NewIssuer filename) w0 = (Some iss, None) ->
  issuer.publicKey v = issuer.publicKey (issuer.Issuer_Verifier iss) ->
  returns h (issuer.Issue iss t) w1 = (s, None) ->
  nowMillisOf h' w2 < Expiration t ->
  returns h' (issuer.Verify v s) w2 = (Some t, None)
  /\ returns h' (issuer.Verify (issuer.Issuer_Verifier iss) s) w2
     = (Some t, None).
Proof.
  intros Hnew Hkey Hissue _. split.
  - exact (Issue_then_Verify h w0 w1 h' w2 filename iss v t s
             Hnew Hkey Hissue).
  - exact (Issue_then_Verify h w0 w1 h' w2 filename iss _ t s
             Hnew eq_refl Hissue).
Qed.

(** [Issue] does not look at [LogTokenIssued]. *)
Lemma Issue_ignores_LogTokenIssued (iss : issuer.Issuer) (token : pb_Token)
  (log : option (list byte -> pb_Token -> Go (option error))) :
  issuer.Issue
    {| issuer.Issuer_Verifier := issuer.Issuer_Verifier iss;
       issuer.signer := issuer.signer iss;
       issuer.LogTokenIssued := log |} token
  = issuer.Issue iss token.
Proof. reflexivity. Qed.

(** C4, as the code has it.  With an observer configured that reports a
    failure whenever it is called, [Issue] still returns the signed wire
    string and a nil error when encoding, signing and serializing
    succeed; the only call it makes draws the nonce. *)
Theorem Issue_returns_the_token_despite_a_failing_observer
  (h : Host) (w : World h) (iss : issuer.Issuer) (token : pb_Token)
  (log : list byte -> pb_Token -> Go (option error))
  (tokenBytes : list byte) (jws : JsonWebSignature) (signed : string) :
  issuer.LogTokenIssued iss = Some log ->
  (forall (b : list byte) (t : pb_Token) (h' : Host) (w' : World h'),
      returns h' (log b t) w' <> None) ->
  proto_Marshal token = Ok tokenBytes ->
  signer_Sign (issuer.signer iss) tokenBytes
    (fst (respond h _ rand_Reader w)) = Ok jws ->
  jws_CompactSerialize jws = Ok signed ->
  returns h (issuer.Issue iss token) w = (signed, None)
  /\ trace h (issuer.Issue iss token) w
     = [RandomDrawn (fst (respond h _ rand_Reader w))].
Proof.
  intros _ _ Hm Hsign Hser.
  unfold returns, issuer.Issue. rewrite Hm; simpl.
  destruct (respond h _ rand_Reader w) as [nonce w']; simpl in *.
  rewrite Hsign; simpl. rewrite Hser; simpl. auto.
Qed.
End Issuing.

(* ================================================================== *)
(** ** Key material *)

Section KeyMaterial.
Context {L : Library}.

(** C8.  [GenerateKeypair] either returns a nil error, having written the
    encoded private key to [filename.priv] with mode 0600 (owner read and
    write, nothing for anybody else) and the encoded public key to
    [filename.pub] with mode 0644 (readable by everybody), or returns an
    error: that of key generation, of an encoding, or of the write that
    failed. *)
Theorem GenerateKeypair_writes_both_files_or_fails
  (h : Host) (w : World h) (filename : string) :
  let err := returns h (issuer.GenerateKeypair filename) w in
  let calls := trace h (issuer.GenerateKeypair filename) w in
  ((err = None /\ keypair_written filename calls)
   \/ (exists e, err = Some e /\ keypair_failure filename calls e))
  /\ owner_only (octal 6 0 0) = true
  /\ world_readable (octal 6 4 4) = true.
Proof.
  intros err calls; subst err calls.
  split; [ | split; reflexivity ].
  unfold returns, issuer.GenerateKeypair; simpl.
  destruct (respond h _ rand_Reader w) as [entropy w1]; simpl.
  destruct (ecdsa_GenerateKey issuer.curveEll entropy) as [priv | e] eqn:Hgen;
    simpl.
  2: { right; exists e; split; [ reflexivity | ].
       now apply (generation_failed _ _ _ entropy). }
  destruct (x509_MarshalECPrivateKey priv) as [keyPEM | e] eqn:Hpriv; simpl.
  2: { right; exists e; split; [ reflexivity | ].
       now apply (private_encoding_failed _ _ _ entropy priv). }
  destruct (respond h _
              (ioutil_WriteFile (filename ++ ".priv") keyPEM (octal 6 0 0)) w1)
    as [[e | ] w2]; simpl.
  { right; exists e; split; [ reflexivity | ].
    now apply (private_write_failed _ _ _ entropy keyPEM). }
  destruct (x509_MarshalPKIXPublicKey (EcdsaPublicKey (ecdsa.Public priv)))
    as [pubKeyPEM | e] eqn:Hpub; simpl.
  2: { right; eexists; split; [ reflexivity | ].
       now apply (public_encoding_failed _ _ _ entropy keyPEM priv e). }
  destruct (respond h _
              (ioutil_WriteFile (filename ++ ".pub") pubKeyPEM (octal 6 4 4)) w2)
    as [[e | ] w3]; simpl.
  { right; exists e; split; [ reflexivity | ].
    now apply (public_write_failed _ _ _ entropy keyPEM pubKeyPEM). }
  left; split; [ reflexivity | ].
  exists entropy, priv, keyPEM, pubKeyPEM. auto.
Qed.

(** X3.  [NewIssuer] refuses a private key that is not an ECDSA key:
    it returns no issuer and an error that names the key's type. *)
Lemma NewIssuer_refuses_other_key_types (h : Host) (w : World h)
  (filename : string) (key : list byte) (privateKey : crypto_PrivateKey) :
  fst (respond h _ (ioutil_ReadFile (filename ++ ".priv")) w) = Ok key ->
  jose_LoadPrivateKey key = Ok privateKey ->
  (forall k, privateKey <> EcdsaPrivateKey k) ->
  returns h (issuer.NewIssuer filename) w
  = (None,
     Some (Errorf ["expected an ECDSA private key, but got a key of type ";
                   typeOfPrivate privateKey])).
Proof.
  intros Hread Hload Hother.
  unfold returns, issuer.NewIssuer; simpl.
  destruct (respond h _ (ioutil_ReadFile (filename ++ ".priv")) w)
    as [r w']; simpl in *; subst r.
  rewrite Hload. destruct privateKey as [k | k]; [ | reflexivity ].
  now destruct (Hother k).
Qed.

(** C6, as the code has it.  For an ECDSA private key on a curve other
    than P-256, [NewIssuer] returns whatever the construction of the
    signer gives: when [jose.NewSigner] accepts the key, [NewIssuer]
    returns an issuer holding that key and a nil error.  The error that
    the curve test assigns is lost. *)
Theorem NewIssuer_returns_issuer_for_key_on_another_curve
  (h : Host) (w : World h) (filename : string) (key : list byte)
  (k : ecdsa.PrivateKey) (sg : Signer) :
  fst (respond h _ (ioutil_ReadFile (filename ++ ".priv")) w) = Ok key ->
  jose_LoadPrivateKey key = Ok (EcdsaPrivateKey k) ->
  elliptic.Name (ecdsa.Curve (ecdsa.Public k)) <> issuer.curveName ->
  jose_NewSigner issuer.curveJose (EcdsaPrivateKey k) = Ok sg ->
  returns h (issuer.NewIssuer filename) w
  = (Some {| issuer.Issuer_Verifier :=
               {| issuer.publicKey := ecdsa.Public k |};
             issuer.signer := sg;
             issuer.LogTokenIssued := None |},
     None).
Proof.
  intros Hread Hload _ Hsg.
  unfold returns, issuer.NewIssuer; simpl.
  destruct (respond h _ (ioutil_ReadFile (filename ++ ".priv")) w)
    as [r w']; simpl in *; subst r.
  now rewrite Hload, Hsg.
Qed.

(** The outcomes of loading a public key, common to both [NewVerifier]
    functions: [mk] builds the verifier. *)
Lemma NewVerifier_outcomes {V : Type} (mk : ecdsa.PublicKey -> V)
  (m : Go (option V * option error)) (h : Host) (w : World h)
  (file : string) :
  m = (buf <- perform (ioutil_ReadFile file) ;;
       match buf with
       | Err err => Return (None, Some err)
       | Ok buf =>
         match jose_LoadPublicKey buf with
         | Err err => Return (None, Some err)
         | Ok (EcdsaPublicKey k) => Return (Some (mk k), None)
         | Ok pubKey =>
           Return (None, Some (Errorf
             ["Expected the public key to use ECDSA, but got a key of type ";
              typeOfPublic pubKey]))
         end
       end)%go ->
  let read := fst (respond h _ (ioutil_ReadFile file) w) in
  let out := returns h m w in
  (forall e, read = Err e -> out = (None, Some e))
  /\ (forall buf e,
        read = Ok buf -> jose_LoadPublicKey buf = Err e ->
        out = (None, Some e))
  /\ (forall buf pubKey,
        read = Ok buf -> jose_LoadPublicKey buf = Ok pubKey ->
        (forall k, pubKey <> EcdsaPublicKey k) ->
        out = (None,
               Some (Errorf
                 ["Expected the public key to use ECDSA, but got a key of type ";
                  typeOfPublic pubKey])))
  /\ (forall buf k,
        read = Ok buf -> jose_LoadPublicKey buf = Ok (EcdsaPublicKey k) ->
        out = (Some (mk k), None)).
Proof.
  intros -> read out. subst read out.
  unfold returns; simpl.
  destruct (respond h _ (ioutil_ReadFile file) w) as [r w']; simpl.
  split; [ | split; [ | split ] ].
  - now intros e ->.
  - intros buf e -> Hload. now rewrite Hload.
  - intros buf pubKey -> Hload Hother. rewrite Hload.
    destruct pubKey as [k | k]; [ | reflexivity ]. now destruct (Hother k).
  - intros buf k -> Hload. now rewrite Hload.
Qed.

(** C7, as the code has it.  [NewVerifier] fails, and returns no
    verifier, when the file cannot be read, when the key cannot be
    decoded, and when the decoded key is not an ECDSA key; for an ECDSA
    public key it returns a verifier holding that key, whatever the key's
    curve.  Both [NewVerifier] functions of the source do so. *)
Theorem NewVerifier_tests_the_key_type_only
  (h : Host) (w : World h) (getPublicKeyFilename : string -> string)
  (name : string) (buf : list byte) (pubKey : crypto_PublicKey) :
  jose_LoadPublicKey buf = Ok pubKey ->
  (fst (respond h _ (ioutil_ReadFile (name ++ ".pub")) w) = Ok buf ->
     returns h (issuer.NewVerifier name) w
     = match pubKey with
       | EcdsaPublicKey k => (Some {| issuer.publicKey := k |}, None)
       | _ =>
         (None,
          Some (Errorf
            ["Expected the public key to use ECDSA, but got a key of type ";
             typeOfPublic pubKey]))
       end)
  /\ (fst (respond h _ (ioutil_ReadFile (getPublicKeyFilename name)) w)
      = Ok buf ->
      returns h (verifier.NewVerifier getPublicKeyFilename name) w
      = match pubKey with
        | EcdsaPublicKey k => (Some {| verifier.publicKey := k |}, None)
        | _ =>
          (None,
           Some (Errorf
             ["Expected the public key to use ECDSA, but got a key of type ";
              typeOfPublic pubKey]))
        end).
Proof.
  intros Hload. split; intro Hread.
  - destruct (NewVerifier_outcomes (fun k => {| issuer.publicKey := k |})
                (issuer.NewVerifier name) h w (name ++ ".pub") eq_refl)
      as (_ & _ & Hother & Hec).
    destruct pubKey as [k | k].
    + exact (Hec buf k Hread Hload).
    + apply (Hother buf _ Hread Hload). discriminate.
  - destruct (NewVerifier_outcomes (fun k => {| verifier.publicKey := k |})
                (verifier.NewVerifier getPublicKeyFilename name) h w
                (getPublicKeyFilename name) eq_refl)
      as (_ & _ & Hother & Hec).
    destruct pubKey as [k | k].
    + exact (Hec buf k Hread Hload).
    + apply (Hother buf _ Hread Hload). discriminate.
Qed.

(** A file that cannot be read or decoded gives an error and no
    verifier. *)
Lemma NewVerifier_fails_on_unusable_file
  (h : Host) (w : World h) (name : string) (e : error) :
  (fst (respond h _ (ioutil_ReadFile (name ++ ".pub")) w) = Err e
   \/ exists buf,
        fst (respond h _ (ioutil_ReadFile (name ++ ".pub")) w) = Ok buf
        /\ jose_LoadPublicKey buf = Err e) ->
  returns h (issuer.NewVerifier name) w = (None, Some e).
Proof.
  destruct (NewVerifier_outcomes (fun k => {| issuer.publicKey := k |})
              (issuer.NewVerifier name) h w (name ++ ".pub") eq_refl)
    as (Hread & Hload & _ & _).
  intros [Hr | (buf & Hr & Hl)]; eauto.
Qed.
End KeyMaterial.

(* ================================================================== *)
(** ** The sample library keeps the laws *)

Module SampleFacts.
Import Sample.

Lemma Z_of_byte_of_Z (z : Z) : Z_of_byte (byte_of_Z z) = z mod 256.
Proof.
  unfold Z_of_byte, byte_of_Z.
  assert (B : 0 <= z mod 256 < 256) by (apply Z.mod_pos_bound; lia).
  destruct (Byte.of_N (Z.to_N (z mod 256))) as [b | ] eqn:E.
  - apply Byte.to_of_N in E. rewrite E. apply Z2N.id. lia.
  - apply Byte.of_N_None_iff in E. lia.
Qed.

Lemma length_put_uint (n : nat) (z : Z) : List.length (put_uint n z) = n.
Proof. revert z; induction n; intro z; simpl; auto. Qed.

Lemma get_put_uint (n : nat) (z : Z) :
  0 <= z < 256 ^ Z.of_nat n -> get_uint (put_uint n z) = z.
Proof.
  revert z; induction n as [ | n IH]; intros z Hz.
  - simpl in *. lia.
  - cbn [put_uint get_uint]. rewrite Z_of_byte_of_Z.
    rewrite IH.
    + symmetry. rewrite Z.add_comm. apply Z.div_mod. lia.
    + rewrite Nat2Z.inj_succ, Z.pow_succ_r in Hz by lia.
      split.
      * apply Z.div_pos; lia.
      * apply Z.div_lt_upper_bound; lia.
Qed.

Lemma unmarshal_marshal (t : Token) (bs : list byte) :
  marshal t = Ok bs -> unmarshal bs = Ok t.
Proof.
  unfold marshal, unmarshal.
  destruct ((0 <=? Expiration t) && (Expiration t <? 2 ^ 63)) eqn:R;
    [ | discriminate ].
  apply andb_true_iff in R. destruct R as [R0 R1].
  apply Z.leb_le in R0. apply Z.ltb_lt in R1.
  assert (Hget : get_uint (put_uint 8 (Expiration t)) = Expiration t)
    by (apply get_put_uint; change (256 ^ Z.of_nat 8) with (2 ^ 64); lia).
  assert (Hlen : List.length (put_uint 8 (Expiration t)) = 8%nat)
    by apply length_put_uint.
  revert Hget Hlen. generalize (put_uint 8 (Expiration t)) as p.
  intros p Hget Hlen E; injection E as <-.
  rewrite length_app, Hlen.
  replace (8 + List.length (Claims t) <? 8)%nat with false
    by (symmetry; apply Nat.ltb_ge; lia).
  rewrite <- Hlen at 1 2.
  rewrite firstn_app, Nat.sub_diag, firstn_O, app_nil_r, firstn_all.
  rewrite skipn_app, Nat.sub_diag, skipn_all. simpl.
  rewrite Hget.
  now destruct t.
Qed.

Lemma verify_signed (a : SignatureAlgorithm) (k : ecdsa.PrivateKey)
  (sg : signer) (body nonce : list byte) (j : jws) (s : string) :
  new_signer a (EcdsaPrivateKey k) = Ok sg ->
  sign sg body nonce = Ok j ->
  serialize j = Ok s ->
  parse s = Ok j /\ verify j (EcdsaPublicKey (ecdsa.Public k)) = Ok body.
Proof.
  unfold new_signer, sign, serialize.
  destruct (alg_curve (alg_code a)) as [c | ] eqn:Ha; [ | discriminate ].
  intro E; injection E as <-. cbn [sigAlg key].
  destruct (same_curve (alg_curve (alg_code a))
              (ecdsa.Curve (ecdsa.Public k)));
    [ | discriminate ].
  destruct nonce as [ | n nonce]; [ discriminate | ].
  intro E; injection E as <-. cbn [alg tag payload].
  intro E; injection E as <-.
  unfold parse, verify.
  rewrite list_byte_of_string_of_list_byte. cbn [alg tag payload].
  rewrite Ha, (byte_dec_lb eq_refl). auto.
Qed.

Lemma laws : LibraryLaws Sample.library.
Proof.
  split.
  - intros a k sg body nonce j s Hsg Hsign Hser.
    exists j. exact (verify_signed a k sg body nonce j s Hsg Hsign Hser).
  - exact unmarshal_marshal.
Qed.
End SampleFacts.

(* ================================================================== *)
(** ** The package on the sample library and host *)

Section Runs.
Import Sample Demo.

(** The key files of the sample hold the keys they are named after. *)
Example sample_key_files :
  load_private [x01; x02; x08] = Ok (EcdsaPrivateKey p256)
  /\ load_private [x01; x03; x09] = Ok (EcdsaPrivateKey p384)
  /\ load_public [x01; x02; x18; x28] = Ok (EcdsaPublicKey (ecdsa.Public p256))
  /\ load_public [x01; x03; x1b; x2d] = Ok (EcdsaPublicKey (ecdsa.Public p384))
  /\ marshal_private p256 = Ok [x01; x02; x08]
  /\ marshal_public (EcdsaPublicKey (ecdsa.Public p256))
     = Ok [x01; x02; x18; x28].
Proof. repeat split. Qed.

(** C1 at the sample: the issuer loaded from [k.priv] issues the token
    [alice]; the protobuf verifier holding the public key returns it. *)
Lemma Verify_of_Issue_returns_the_token_at_sample :
  returns host (issuer.NewIssuer "k") world0 = (Some issuer0, None)
  /\ issuer.publicKey pb_verifier0
     = issuer.publicKey (issuer.Issuer_Verifier issuer0)
  /\ returns host (issuer.Issue issuer0 alice) world0
     = (wire ES256 alice, None)
  /\ nowMillisOf host world0 < Expiration alice
  /\ returns host (issuer.Verify pb_verifier0 (wire ES256 alice)) world0
     = (Some alice, None)
  /\ returns host
       (issuer.Verify (issuer.Issuer_Verifier issuer0) (wire ES256 alice))
       world0
     = (Some alice, None).
Proof.
  assert (H1 : returns host (issuer.NewIssuer "k") world0
               = (Some issuer0, None)) by reflexivity.
  assert (H2 : issuer.publicKey pb_verifier0
               = issuer.publicKey (issuer.Issuer_Verifier issuer0))
    by reflexivity.
  assert (H3 : returns host (issuer.Issue issuer0 alice) world0
               = (wire ES256 alice, None)) by reflexivity.
  assert (H4 : nowMillisOf host world0 < Expiration alice)
    by (vm_compute; reflexivity).
  exact (conj H1 (conj H2 (conj H3 (conj H4
           (Verify_of_Issue_returns_the_token (Laws := SampleFacts.laws)
              host world0 world0 host world0 "k" issuer0 pb_verifier0
              alice (wire ES256 alice) H1 H2 H3 H4))))).
Defined.

(** C2 and C3 at the sample: at 1700000000000 ms, a token expiring at
    that very millisecond verifies, and one that expired a millisecond
    before is refused. *)
Example expiration_boundary_at_sample :
  nowMillisOf host world0 = 1700000000000
  /\ returns host (verifier.TokenExpired on_time) world0 = false
  /\ returns host (verifier.TokenExpired late) world0 = true
  /\ returns host (verifier.Verify verifier0 (wire ES256 on_time)) world0
     = (Some on_time, None)
  /\ returns host (verifier.Verify verifier0 (wire ES256 late)) world0
     = (None, Some "token has expired").
Proof. repeat split. Qed.

(** The stages before the expiration policy at the sample: a string that
    does not parse, a header with an algorithm that is not an ECDSA one, a
    token under another key and a payload cut short are refused with the
    library's error. *)
Example Verify_rejections_at_sample :
  returns host (verifier.Verify verifier0 "x") world0
  = (None, Some "square/go-jose: compact JWS format must have three parts")
  /\ returns host (verifier.Verify verifier0 (wire "HS256" alice)) world0
     = (None, Some "square/go-jose: error in cryptographic primitive")
  /\ returns host
       (verifier.Verify {| verifier.publicKey := ecdsa.Public p384 |}
          (wire ES256 alice)) world0
     = (None, Some "square/go-jose: error in cryptographic primitive")
  /\ returns host
       (verifier.Verify verifier0
          (string_of_list_byte [x01; key_tag (ecdsa.Public p256); x00]))
       world0
     = (None, Some "proto: unexpected EOF").
Proof. repeat split. Qed.

(** C9 at the sample: two worlds that differ in everything but the
    clock give the same result, and the protobuf verifier returns a token
    that the other refuses as expired. *)
Example Verify_on_two_worlds_at_sample :
  returns host (verifier.Verify verifier0 (wire ES256 late)) world0
  = returns host (verifier.Verify verifier0 (wire ES256 late)) drained
  /\ trace host (verifier.Verify verifier0 (wire ES256 late)) world0
     = [ClockRead noon]
  /\ snd (run host (verifier.Verify verifier0 (wire ES256 late)) world0)
     = world0
  /\ returns host (issuer.Verify pb_verifier0 (wire ES256 late)) world0
     = (Some late, None).
Proof. repeat split. Qed.

(** C3 refuted for the protobuf verifier: the token [late] expired one
    millisecond before the sample's time; its wire string parses,
    verifies under the stored key and decodes, and the protobuf [Verify]
    returns the token with a nil error, where the verifier of
    [token/verifier.go] answers "token has expired". *)
Lemma pb_Verify_returns_an_expired_token :
  Expiration late < nowMillisOf host world0
  /\ jose_ParseSigned (wire ES256 late)
     = Ok {| alg := x01; tag := key_tag (ecdsa.Public p256);
             payload := (put_uint 8 (Expiration late) ++ Claims late)%list |}
  /\ jws_Verify
       {| alg := x01; tag := key_tag (ecdsa.Public p256);
          payload := (put_uint 8 (Expiration late) ++ Claims late)%list |}
       (EcdsaPublicKey (issuer.publicKey pb_verifier0))
     = Ok (put_uint 8 (Expiration late) ++ Claims late)%list
  /\ proto_Unmarshal (put_uint 8 (Expiration late) ++ Claims late)%list
     = Ok late
  /\ returns host (issuer.Verify pb_verifier0 (wire ES256 late)) world0
     = (Some late, None)
  /\ returns host (verifier.Verify verifier0 (wire ES256 late)) world0
     = (None, Some "token has expired").
Proof. repeat split. Qed.

(** C4 at the sample: the observer fails at every call, and [Issue]
    returns the signed token with a nil error. *)
Lemma Issue_returns_the_token_despite_a_failing_observer_at_sample :
  issuer.LogTokenIssued observed_issuer = Some failing_log
  /\ (forall (b : list byte) (t : pb_Token) (h' : Host) (w' : World h'),
        returns h' (failing_log b t) w' <> None)
  /\ returns host (issuer.Issue observed_issuer alice) world0
     = (wire ES256 alice, None)
  /\ trace host (issuer.Issue observed_issuer alice) world0
     = [RandomDrawn [x07; x2a; x63]].
Proof.
  assert (H1 : issuer.LogTokenIssued observed_issuer = Some failing_log)
    by reflexivity.
  assert (H2 : forall (b : list byte) (t : pb_Token) (h' : Host)
                 (w' : World h'),
             returns h' (failing_log b t) w' <> None)
    by (intros b t h' w'; discriminate).
  exact (conj H1 (conj H2
           (Issue_returns_the_token_despite_a_failing_observer
              host world0 observed_issuer alice failing_log
              (put_uint 8 (Expiration alice) ++ Claims alice)%list
              {| alg := x01; tag := key_tag (ecdsa.Public p256);
                 payload := (put_uint 8 (Expiration alice)
                             ++ Claims alice)%list |}
              (wire ES256 alice)
              H1 H2 eq_refl eq_refl eq_refl))).
Defined.

(** C5 refuted: a wire string whose header declares ES384, carrying the
    tag of the P-256 key, is accepted by both verifiers holding that
    key. *)
Lemma Verify_accepts_a_header_declaring_ES384 :
  jose_ParseSigned (wire "ES384" alice)
  = Ok {| alg := x02; tag := key_tag (ecdsa.Public p256);
          payload := (put_uint 8 (Expiration alice) ++ Claims alice)%list |}
  /\ jws_Algorithm
       {| alg := x02; tag := key_tag (ecdsa.Public p256);
          payload := (put_uint 8 (Expiration alice) ++ Claims alice)%list |}
     = "ES384"
  /\ "ES384" <> ES256
  /\ returns host (verifier.Verify verifier0 (wire "ES384" alice)) world0
     = (Some alice, None)
  /\ returns host (issuer.Verify pb_verifier0 (wire "ES384" alice)) world0
     = (Some alice, None).
Proof. repeat split. discriminate. Qed.

(** C5 as amended, at the sample: for the string declaring ES384 the
    outcome is the library's; the same string under the P-384 key, whose
    tag differs, is refused with the library's error. *)
Lemma Verify_leaves_the_algorithm_to_the_library_at_sample :
  jose_ParseSigned (wire "ES384" alice)
  = Ok {| alg := x02; tag := key_tag (ecdsa.Public p256);
          payload := (put_uint 8 (Expiration alice) ++ Claims alice)%list |}
  /\ jws_Algorithm
       {| alg := x02; tag := key_tag (ecdsa.Public p256);
          payload := (put_uint 8 (Expiration alice) ++ Claims alice)%list |}
     <> ES256
  /\ returns host
       (verifier.Verify {| verifier.publicKey := ecdsa.Public p384 |}
          (wire "ES384" alice)) world0
     = (None, Some "square/go-jose: error in cryptographic primitive")
  /\ returns host
       (issuer.Verify {| issuer.publicKey := ecdsa.Public p256 |}
          (wire "ES384" alice)) world0
     = (Some alice, None).
Proof.
  assert (H1 : jose_ParseSigned (wire "ES384" alice)
               = Ok {| alg := x02; tag := key_tag (ecdsa.Public p256);
                       payload := (put_uint 8 (Expiration alice)
                                   ++ Claims alice)%list |})
    by reflexivity.
  assert (H2 : jws_Algorithm
                 {| alg := x02; tag := key_tag (ecdsa.Public p256);
                    payload := (put_uint 8 (Expiration alice)
                                ++ Claims alice)%list |}
               <> ES256)
    by discriminate.
  destruct (Verify_leaves_the_algorithm_to_the_library host world0
              {| verifier.publicKey := ecdsa.Public p384 |}
              {| issuer.publicKey := ecdsa.Public p256 |}
              (wire "ES384" alice) _ H1 H2)
    as (Hrej & _ & _ & Hacc).
  exact (conj H1 (conj H2
           (conj (Hrej _ eq_refl) (Hacc _ eq_refl)))).
Defined.

(** C6 at the sample: [big.priv] holds a P-384 key, and [NewIssuer]
    returns an issuer holding it, with a nil error. *)
Lemma NewIssuer_returns_issuer_for_key_on_another_curve_at_sample :
  fst (respond host _ (ioutil_ReadFile ("big" ++ ".priv")) world0)
  = Ok [x01; x03; x09]
  /\ jose_LoadPrivateKey [x01; x03; x09] = Ok (EcdsaPrivateKey p384)
  /\ elliptic.Name (ecdsa.Curve (ecdsa.Public p384)) <> issuer.curveName
  /\ jose_NewSigner issuer.curveJose (EcdsaPrivateKey p384)
     = Ok {| sigAlg := x01; key := p384 |}
  /\ returns host (issuer.NewIssuer "big") world0
     = (Some {| issuer.Issuer_Verifier :=
                  {| issuer.publicKey := ecdsa.Public p384 |};
                issuer.signer := {| sigAlg := x01; key := p384 |};
                issuer.LogTokenIssued := None |},
        None).
Proof.
  assert (H1 : fst (respond host _ (ioutil_ReadFile ("big" ++ ".priv"))
                      world0)
               = Ok [x01; x03; x09]) by reflexivity.
  assert (H2 : jose_LoadPrivateKey [x01; x03; x09]
               = Ok (EcdsaPrivateKey p384)) by reflexivity.
  assert (H3 : elliptic.Name (ecdsa.Curve (ecdsa.Public p384))
               <> issuer.curveName) by discriminate.
  assert (H4 : jose_NewSigner issuer.curveJose (EcdsaPrivateKey p384)
               = Ok {| sigAlg := x01; key := p384 |}) by reflexivity.
  exact (conj H1 (conj H2 (conj H3 (conj H4
           (NewIssuer_returns_issuer_for_key_on_another_curve
              host world0 "big" [x01; x03; x09] p384
              {| sigAlg := x01; key := p384 |} H1 H2 H3 H4))))).
Defined.

(** The other half of C6 at the sample: an RSA key is refused. *)
Example NewIssuer_refuses_an_RSA_key_at_sample :
  returns host (issuer.NewIssuer "rsa") world0
  = (None,
     Some "expected an ECDSA private key, but got a key of type *rsa.PrivateKey").
Proof. reflexivity. Qed.

(** C7 refuted: [big.pub] holds an ECDSA public key on P-384, not the
    fixed curve, and both [NewVerifier] functions return a verifier
    holding it, with a nil error. *)
Lemma NewVerifier_accepts_a_key_on_P384 :
  fst (respond host _ (ioutil_ReadFile "big.pub") world0)
  = Ok [x01; x03; x1b; x2d]
  /\ jose_LoadPublicKey [x01; x03; x1b; x2d]
     = Ok (EcdsaPublicKey (ecdsa.Public p384))
  /\ ecdsa.Curve (ecdsa.Public p384) = elliptic.P384
  /\ elliptic.Name (ecdsa.Curve (ecdsa.Public p384)) <> issuer.curveName
  /\ returns host (issuer.NewVerifier "big") world0
     = (Some {| issuer.publicKey := ecdsa.Public p384 |}, None)
  /\ returns host (verifier.NewVerifier public_key_in "big") world0
     = (Some {| verifier.publicKey := ecdsa.Public p384 |}, None).
Proof. repeat split. discriminate. Qed.

(** C7 as amended, at the sample: the RSA key of [rsa.pub] is refused by
    both functions. *)
Lemma NewVerifier_tests_the_key_type_only_at_sample :
  jose_LoadPublicKey [x00; x21; x03]
  = Ok (RsaPublicKey {| rsa.N := 33; rsa.E := 3 |})
  /\ returns host (issuer.NewVerifier "rsa") world0
     = (None,
        Some "Expected the public key to use ECDSA, but got a key of type *rsa.PublicKey")
  /\ returns host (verifier.NewVerifier public_key_in "rsa") world0
     = (None,
        Some "Expected the public key to use ECDSA, but got a key of type *rsa.PublicKey").
Proof.
  assert (H1 : jose_LoadPublicKey [x00; x21; x03]
               = Ok (RsaPublicKey {| rsa.N := 33; rsa.E := 3 |}))
    by reflexivity.
  destruct (NewVerifier_tests_the_key_type_only host world0 public_key_in
              "rsa" [x00; x21; x03] _ H1) as (Hpb & Hjson).
  exact (conj H1 (conj (Hpb eq_refl) (Hjson eq_refl))).
Defined.

(** C8 at the sample: a fresh key pair is written with the two modes; on
    a private-key file that its owner may not write, and on an exhausted
    random source, [GenerateKeypair] fails. *)
Example GenerateKeypair_at_sample :
  returns host (issuer.GenerateKeypair "fresh") world0 = None
  /\ trace host (issuer.GenerateKeypair "fresh") world0
     = [RandomDrawn [x07; x2a; x63];
        FileWritten "fresh.priv" [x01; x02; x08] 384 None;
        FileWritten "fresh.pub" [x01; x02; x18; x28] 420 None]
  /\ lookup "fresh.priv"
       (disk (snd (run host (issuer.GenerateKeypair "fresh") world0)))
     = Some ([x01; x02; x08], 384)
  /\ lookup "fresh.pub"
       (disk (snd (run host (issuer.GenerateKeypair "fresh") world0)))
     = Some ([x01; x02; x18; x28], 420)
  /\ returns host (issuer.GenerateKeypair "locked") world0
     = Some "open locked.priv: permission denied"
  /\ returns host (issuer.GenerateKeypair "fresh") drained = Some "EOF".
Proof. repeat split. Qed.
End Runs.

(* ================================================================== *)
(** ** Further properties: what the functions return *)

Section Returns.
Context {L : Library}.

(** X1.  Both [Verify] functions return a token with a nil error, or a nil
    token with an error: never both, never neither. *)
Theorem Verify_returns_a_token_or_an_error
  (h : Host) (w : World h)
  (ev : verifier.ecdsaVerifier) (v : issuer.Verifier) (s : string) :
  ((exists token, returns h (verifier.Verify ev s) w = (Some token, None))
   \/ (exists e, returns h (verifier.Verify ev s) w = (None, Some e)))
  /\ ((exists token, returns h (issuer.Verify v s) w = (Some token, None))
      \/ (exists e, returns h (issuer.Verify v s) w = (None, Some e))).
Proof.
  split.
  - destruct (decodes_or_rejects json_Unmarshal (verifier.publicKey ev) s)
      as [[t Hd] | [e Hr]].
    + rewrite (Verify_decodes_returns _ _ _ _ _ Hd).
      destruct (Expiration t <? nowMillisOf h w); eauto.
    + rewrite (Verify_rejects _ _ _ Hr). right; exists e; reflexivity.
  - destruct (decodes_or_rejects proto_Unmarshal (issuer.publicKey v) s)
      as [[t Hd] | [e Hr]].
    + rewrite (pb_Verify_decodes _ _ _ Hd). left; exists t; reflexivity.
    + rewrite (pb_Verify_rejects _ _ _ Hr). right; exists e; reflexivity.
Qed.

(** X2.  The three functions that load a key return an object with a nil
    error, or a nil object with an error. *)
Theorem key_loaders_return_an_object_or_an_error
  (h : Host) (w : World h) (getPublicKeyFilename : string -> string)
  (name : string) :
  ((exists iss, returns h (issuer.NewIssuer name) w = (Some iss, None))
   \/ (exists e, returns h (issuer.NewIssuer name) w = (None, Some e)))
  /\ ((exists v, returns h (issuer.NewVerifier name) w = (Some v, None))
      \/ (exists e, returns h (issuer.NewVerifier name) w = (None, Some e)))
  /\ ((exists v,
         returns h (verifier.NewVerifier getPublicKeyFilename name) w
         = (Some v, None))
      \/ (exists e,
            returns h (verifier.NewVerifier getPublicKeyFilename name) w
            = (None, Some e))).
Proof.
  split; [ | split ].
  - unfold returns, issuer.NewIssuer; simpl.
    destruct (respond h _ (ioutil_ReadFile (name ++ ".priv")) w)
      as [[key | e] w']; simpl; [ | eauto ].
    destruct (jose_LoadPrivateKey key) as [[k | k] | e]; simpl; eauto.
    destruct (jose_NewSigner issuer.curveJose (EcdsaPrivateKey k));
      simpl; eauto.
  - unfold returns, issuer.NewVerifier; simpl.
    destruct (respond h _ (ioutil_ReadFile (name ++ ".pub")) w)
      as [[buf | e] w']; simpl; [ | eauto ].
    destruct (jose_LoadPublicKey buf) as [[k | k] | e]; simpl; eauto.
  - unfold returns, verifier.NewVerifier; simpl.
    destruct (respond h _ (ioutil_ReadFile (getPublicKeyFilename name)) w)
      as [[buf | e] w']; simpl; [ | eauto ].
    destruct (jose_LoadPublicKey buf) as [[k | k] | e]; simpl; eauto.
Qed.

(** X4.  [NewIssuer] returns, with a nil issuer, the error of the step that
    fails: reading the file, decoding the key, or making the signer. *)
Theorem NewIssuer_returns_the_error_of_the_failing_step
  (h : Host) (w : World h) (filename : string) (e : error) :
  (fst (respond h _ (ioutil_ReadFile (filename ++ ".priv")) w) = Err e
   \/ (exists key,
         fst (respond h _ (ioutil_ReadFile (filename ++ ".priv")) w) = Ok key
         /\ (jose_LoadPrivateKey key = Err e
             \/ exists k,
                 jose_LoadPrivateKey key = Ok (EcdsaPrivateKey k)
                 /\ jose_NewSigner issuer.curveJose (EcdsaPrivateKey k)
                    = Err e))) ->
  returns h (issuer.NewIssuer filename) w = (None, Some e).
Proof.
  unfold returns, issuer.NewIssuer; simpl.
  destruct (respond h _ (ioutil_ReadFile (filename ++ ".priv")) w)
    as [r w']; simpl.
  intros [-> | (key & -> & [Hl | (k & Hl & Hs)])].
  - reflexivity.
  - now rewrite Hl.
  - now rewrite Hl, Hs.
Qed.

(** X5.  Both [NewVerifier] functions return, with a nil verifier, the error
    of reading the file or of decoding the key. *)
Theorem NewVerifier_returns_the_error_of_reading_or_decoding
  (h : Host) (w : World h) (getPublicKeyFilename : string -> string)
  (name : string) (e : error) :
  ((fst (respond h _ (ioutil_ReadFile (name ++ ".pub")) w) = Err e
    \/ exists buf,
         fst (respond h _ (ioutil_ReadFile (name ++ ".pub")) w) = Ok buf
         /\ jose_LoadPublicKey buf = Err e) ->
   returns h (issuer.NewVerifier name) w = (None, Some e))
  /\ ((fst (respond h _ (ioutil_ReadFile (getPublicKeyFilename name)) w)
       = Err e
       \/ exists buf,
            fst (respond h _ (ioutil_ReadFile (getPublicKeyFilename name)) w)
            = Ok buf
            /\ jose_LoadPublicKey buf = Err e) ->
      returns h (verifier.NewVerifier getPublicKeyFilename name) w
      = (None, Some e)).
Proof.
  split.
  - destruct (NewVerifier_outcomes (fun k => {| issuer.publicKey := k |})
                (issuer.NewVerifier name) h w (name ++ ".pub") eq_refl)
      as (Hread & Hload & _ & _).
    intros [Hr | (buf & Hr & Hl)]; eauto.
  - destruct (NewVerifier_outcomes (fun k => {| verifier.publicKey := k |})
                (verifier.NewVerifier getPublicKeyFilename name) h w
                (getPublicKeyFilename name) eq_refl)
      as (Hread & Hload & _ & _).
    intros [Hr | (buf & Hr & Hl)]; eauto.
Qed.

(** X6.  Loading a key reads one file and does nothing else: [NewIssuer]
    reads [filename.priv], the protobuf [NewVerifier] reads
    [basename.pub], the other [NewVerifier] reads the file that
    [getPublicKeyFilename] names. *)
Theorem key_loaders_read_one_file
  (h : Host) (w : World h) (getPublicKeyFilename : string -> string)
  (name : string) :
  trace h (issuer.NewIssuer name) w
  = [FileRead (name ++ ".priv")
       (fst (respond h _ (ioutil_ReadFile (name ++ ".priv")) w))]
  /\ trace h (issuer.NewVerifier name) w
     = [FileRead (name ++ ".pub")
          (fst (respond h _ (ioutil_ReadFile (name ++ ".pub")) w))]
  /\ trace h (verifier.NewVerifier getPublicKeyFilename name) w
     = [FileRead (getPublicKeyFilename name)
          (fst (respond h _
                  (ioutil_ReadFile (getPublicKeyFilename name)) w))].
Proof.
  split; [ | split ].
  - unfold issuer.NewIssuer; simpl.
    destruct (respond h _ (ioutil_ReadFile (name ++ ".priv")) w)
      as [[key | e] w']; simpl; [ | reflexivity ].
    destruct (jose_LoadPrivateKey key) as [[k | k] | e]; simpl;
      try reflexivity.
    now destruct (jose_NewSigner issuer.curveJose (EcdsaPrivateKey k)).
  - unfold issuer.NewVerifier; simpl.
    destruct (respond h _ (ioutil_ReadFile (name ++ ".pub")) w)
      as [[buf | e] w']; simpl; [ | reflexivity ].
    now destruct (jose_LoadPublicKey buf) as [[k | k] | e].
  - unfold verifier.NewVerifier; simpl.
    destruct (respond h _ (ioutil_ReadFile (getPublicKeyFilename name)) w)
      as [[buf | e] w']; simpl; [ | reflexivity ].
    now destruct (jose_LoadPublicKey buf) as [[k | k] | e].
Qed.

(** X7.  When [Issue] returns an error, the string it returns is empty, and
    the error is that of the step that failed: encoding the token,
    signing, or serializing. *)
Theorem Issue_returns_the_empty_string_with_an_error
  (h : Host) (w : World h) (iss : issuer.Issuer) (token : pb_Token)
  (e : error) :
  snd (returns h (issuer.Issue iss token) w) = Some e ->
  fst (returns h (issuer.Issue iss token) w) = ""
  /\ (proto_Marshal token = Err e
      \/ exists tokenBytes,
           proto_Marshal token = Ok tokenBytes
           /\ (signer_Sign (issuer.signer iss) tokenBytes
                 (fst (respond h _ rand_Reader w)) = Err e
               \/ exists jws,
                    signer_Sign (issuer.signer iss) tokenBytes
                      (fst (respond h _ rand_Reader w)) = Ok jws
                    /\ jws_CompactSerialize jws = Err e)).
Proof.
  unfold returns, issuer.Issue.
  destruct (proto_Marshal token) as [tokenBytes | e0]; simpl.
  2: { intro E; injection E as ->. auto. }
  destruct (respond h _ rand_Reader w) as [nonce w']; simpl.
  destruct (signer_Sign (issuer.signer iss) tokenBytes nonce)
    as [jws | e0] eqn:Hsign; simpl.
  2: { intro E; injection E as ->. split; [ reflexivity | ].
       right; exists tokenBytes; auto. }
  destruct (jws_CompactSerialize jws) as [s | e0] eqn:Hser; simpl.
  - discriminate.
  - intro E; injection E as ->. split; [ reflexivity | ].
    right; exists tokenBytes; split; [ reflexivity | ].
    right; exists jws; auto.
Qed.

(** X8.  The protobuf [Verify] applies no expiration policy: a string that
    parses, verifies under the stored key and decodes is answered with
    the decoded token on every host and at every time. *)
Theorem pb_Verify_returns_the_decoded_token_at_any_time
  (v : issuer.Verifier) (s : string) (token : pb_Token) :
  decodes proto_Unmarshal (issuer.publicKey v) s token ->
  forall (h : Host) (w : World h),
    returns h (issuer.Verify v s) w = (Some token, None)
    /\ trace h (issuer.Verify v s) w = [].
Proof.
  intros Hd h w. now rewrite (pb_Verify_decodes _ _ _ Hd).
Qed.

(** X15.  The two [NewVerifier] functions treat a key file alike: when
    [getPublicKeyFilename] names the file [name.pub], they return the same
    error, or verifiers holding the same key. *)
Theorem NewVerifier_functions_agree
  (h : Host) (w : World h) (getPublicKeyFilename : string -> string)
  (name : string) :
  getPublicKeyFilename name = name ++ ".pub" ->
  option_map verifier.publicKey
    (fst (returns h (verifier.NewVerifier getPublicKeyFilename name) w))
  = option_map issuer.publicKey
      (fst (returns h (issuer.NewVerifier name) w))
  /\ snd (returns h (verifier.NewVerifier getPublicKeyFilename name) w)
     = snd (returns h (issuer.NewVerifier name) w).
Proof.
  intro Hname.
  unfold returns, verifier.NewVerifier, issuer.NewVerifier; simpl.
  rewrite Hname.
  destruct (respond h _ (ioutil_ReadFile (name ++ ".pub")) w)
    as [[buf | e] w']; simpl; [ | auto ].
  destruct (jose_LoadPublicKey buf) as [[k | k] | e]; simpl; auto.
Qed.
End Returns.

(* ================================================================== *)
(** ** Further properties: expiration over time *)

Section OverTime.
Context {L : Library}.

Lemma quot_Millisecond_le (a b : Z) :
  a <= b -> a ÷ time_Millisecond <= b ÷ time_Millisecond.
Proof. intro H. apply Z.quot_le_mono; [ reflexivity | exact H ]. Qed.

(** X9.  A token that is expired stays expired: if [TokenExpired] answers
    true when the clock reads some time, it answers true when the clock
    reads any later time. *)
Theorem TokenExpired_stays_expired
  (h1 h2 : Host) (w1 : World h1) (w2 : World h2) (token : AuthToken) :
  fst (respond h1 _ time_Now_UnixNano w1)
  <= fst (respond h2 _ time_Now_UnixNano w2) ->
  returns h1 (verifier.TokenExpired token) w1 = true ->
  returns h2 (verifier.TokenExpired token) w2 = true.
Proof.
  intros Hle. rewrite !TokenExpired_returns. unfold nowMillisOf.
  intros H1. apply Z.ltb_lt in H1. apply Z.ltb_lt.
  apply quot_Millisecond_le in Hle. lia.
Qed.

(** X10.  Over time [Verify] only goes from accepting to refusing: a string
    accepted when the clock reads some time is accepted, with the same
    token, at every earlier time; a string refused at some time is
    refused, with the same error, at every later time. *)
Theorem Verify_acceptance_only_ends
  (h1 h2 : Host) (w1 : World h1) (w2 : World h2)
  (ev : verifier.ecdsaVerifier) (s : string) :
  fst (respond h1 _ time_Now_UnixNano w1)
  <= fst (respond h2 _ time_Now_UnixNano w2) ->
  (forall token,
     returns h2 (verifier.Verify ev s) w2 = (Some token, None) ->
     returns h1 (verifier.Verify ev s) w1 = (Some token, None))
  /\ (forall e,
        returns h1 (verifier.Verify ev s) w1 = (None, Some e) ->
        returns h2 (verifier.Verify ev s) w2 = (None, Some e)).
Proof.
  intros Hle. apply quot_Millisecond_le in Hle.
  fold (nowMillisOf h1 w1) in Hle. fold (nowMillisOf h2 w2) in Hle.
  destruct (decodes_or_rejects json_Unmarshal (verifier.publicKey ev) s)
    as [[t Hd] | [e' Hr]].
  - rewrite !(Verify_decodes_returns _ _ _ _ _ Hd).
    destruct (Z.ltb_spec (Expiration t) (nowMillisOf h1 w1)) as [L1 | L1];
      destruct (Z.ltb_spec (Expiration t) (nowMillisOf h2 w2)) as [L2 | L2];
      split; intros x Hx; first [ exact Hx | discriminate | lia ].
  - rewrite !(Verify_rejects _ _ _ Hr). split; intros x Hx; exact Hx.
Qed.

(** X11.  In nanoseconds: a token with a non-negative expiration is valid
    through the whole millisecond of its expiration, and is expired from
    the first nanosecond of the next millisecond on. *)
Theorem TokenExpired_from_the_next_millisecond
  (h : Host) (w : World h) (token : AuthToken) :
  0 <= Expiration token ->
  (returns h (verifier.TokenExpired token) w = true
   <-> (Expiration token + 1) * time_Millisecond
       <= fst (respond h _ time_Now_UnixNano w)).
Proof.
  intro Hpos. rewrite TokenExpired_returns. unfold nowMillisOf.
  generalize (fst (respond h Z time_Now_UnixNano w)) as n. intro n.
  unfold time_Millisecond. rewrite Z.ltb_lt.
  destruct (Z.le_gt_cases 0 n) as [Hn | Hn].
  - rewrite Z.quot_div_nonneg by lia.
    split; intro H.
    + assert (Hm : 1000000 * (n / 1000000) <= n)
        by (apply Z.mul_div_le; lia).
      nia.
    + assert (Hq : Expiration token + 1 <= n / 1000000)
        by (apply Z.div_le_lower_bound; lia).
      lia.
  - assert (Hq : n ÷ 1000000 <= 0 ÷ 1000000)
      by (apply Z.quot_le_mono; lia).
    rewrite Z.quot_0_l in Hq by lia.
    split; intro H; nia.
Qed.
End OverTime.

(* ================================================================== *)
(** ** Further properties: the key files *)

Section KeyFiles.
Context {L : Library}.

Lemma priv_is_not_pub (p : string) : p ++ ".pub" <> p ++ ".priv".
Proof.
  induction p as [ | a p IH]; simpl.
  - discriminate.
  - intro E. injection E as E. exact (IH E).
Qed.

(** What a successful [GenerateKeypair] leaves on a host that keeps its
    files. *)
Lemma GenerateKeypair_leaves_both_files
  (h : Host) (Hfs : KeepsFiles h) (w : World h) (filename : string) :
  returns h (issuer.GenerateKeypair filename) w = None ->
  exists priv keyPEM pubKeyPEM,
    ecdsa_GenerateKey issuer.curveEll (fst (respond h _ rand_Reader w))
    = Ok priv
    /\ x509_MarshalECPrivateKey priv = Ok keyPEM
    /\ x509_MarshalPKIXPublicKey (EcdsaPublicKey (ecdsa.Public priv))
       = Ok pubKeyPEM
    /\ fst (respond h _ (ioutil_ReadFile (filename ++ ".priv"))
              (snd (run h (issuer.GenerateKeypair filename) w)))
       = Ok keyPEM
    /\ fst (respond h _ (ioutil_ReadFile (filename ++ ".pub"))
              (snd (run h (issuer.GenerateKeypair filename) w)))
       = Ok pubKeyPEM.
Proof.
  unfold returns, issuer.GenerateKeypair; simpl.
  destruct (respond h _ rand_Reader w) as [entropy w1]; simpl.
  destruct (ecdsa_GenerateKey issuer.curveEll entropy) as [priv | e] eqn:Hgen;
    simpl; [ | discriminate ].
  destruct (x509_MarshalECPrivateKey priv) as [keyPEM | e] eqn:Hpriv; simpl;
    [ | discriminate ].
  pose proof (read_after_write h Hfs (filename ++ ".priv") keyPEM
                (octal 6 0 0) w1) as Hrw1.
  destruct (respond h _
              (ioutil_WriteFile (filename ++ ".priv") keyPEM (octal 6 0 0)) w1)
    as [[e | ] w2]; simpl in *; [ discriminate | ].
  destruct (x509_MarshalPKIXPublicKey (EcdsaPublicKey (ecdsa.Public priv)))
    as [pubKeyPEM | e] eqn:Hpub; simpl; [ | discriminate ].
  pose proof (read_after_write h Hfs (filename ++ ".pub") pubKeyPEM
                (octal 6 4 4) w2) as Hrw2.
  pose proof (write_keeps_others h Hfs (filename ++ ".pub")
                (filename ++ ".priv") pubKeyPEM (octal 6 4 4) w2
                (priv_is_not_pub filename)) as Hko.
  destruct (respond h _
              (ioutil_WriteFile (filename ++ ".pub") pubKeyPEM (octal 6 4 4)) w2)
    as [[e | ] w3]; simpl in *; [ discriminate | ].
  intros _. exists priv, keyPEM, pubKeyPEM.
  repeat split; auto. rewrite Hko. auto.
Qed.

(** X12.  A key pair generated under a base path loads back from that path:
    after a successful [GenerateKeypair], on a host that keeps its files
    and with encodings that decode to the key encoded, [NewVerifier]
    returns a verifier holding the public half of the generated key, and
    [NewIssuer] returns what making the signer for that key gives, its
    verifier holding the same public key. *)
Theorem generated_keypair_loads_back
  (h : Host) (w : World h) (filename : string) :
  KeepsFiles h ->
  (forall priv,
     ecdsa_GenerateKey issuer.curveEll (fst (respond h _ rand_Reader w))
     = Ok priv ->
     encodings_load priv) ->
  returns h (issuer.GenerateKeypair filename) w = None ->
  exists priv,
    ecdsa_GenerateKey issuer.curveEll (fst (respond h _ rand_Reader w))
    = Ok priv
    /\ returns h (issuer.NewVerifier filename)
         (snd (run h (issuer.GenerateKeypair filename) w))
       = (Some {| issuer.publicKey := ecdsa.Public priv |}, None)
    /\ returns h (issuer.NewIssuer filename)
         (snd (run h (issuer.GenerateKeypair filename) w))
       = match jose_NewSigner issuer.curveJose (EcdsaPrivateKey priv) with
         | Ok sg =>
           (Some {| issuer.Issuer_Verifier :=
                      {| issuer.publicKey := ecdsa.Public priv |};
                    issuer.signer := sg;
                    issuer.LogTokenIssued := None |},
            None)
         | Err e => (None, Some e)
         end.
Proof.
  intros Hfs Henc Hgen.
  destruct (GenerateKeypair_leaves_both_files h Hfs w filename Hgen)
    as (priv & keyPEM & pubKeyPEM & Hk & Hm & Hp & Hr1 & Hr2).
  destruct (Henc priv Hk) as [Hl1 Hl2].
  exists priv. split; [ exact Hk | ].
  set (w' := snd (run h (issuer.GenerateKeypair filename) w)) in *.
  split.
  - unfold returns, issuer.NewVerifier; simpl.
    destruct (respond h _ (ioutil_ReadFile (filename ++ ".pub")) w')
      as [r w'']; simpl in *; subst r.
    now rewrite (Hl2 _ Hp).
  - unfold returns, issuer.NewIssuer; simpl.
    destruct (respond h _ (ioutil_ReadFile (filename ++ ".priv")) w')
      as [r w'']; simpl in *; subst r.
    rewrite (Hl1 _ Hm).
    now destruct (jose_NewSigner issuer.curveJose (EcdsaPrivateKey priv)).
Qed.

(** X13.  From key generation to verification: with the issuer and the
    verifier loaded from a key pair that [GenerateKeypair] has just
    written, every token the issuer issues verifies to itself under the
    verifier. *)
Theorem token_round_trip_from_a_generated_keypair {Laws : LibraryLaws L}
  (h : Host) (w w1 : World h) (h2 : Host) (w2 : World h2)
  (filename : string) (iss : issuer.Issuer) (v : issuer.Verifier)
  (t : pb_Token) (s : string) :
  KeepsFiles h ->
  (forall priv,
     ecdsa_GenerateKey issuer.curveEll (fst (respond h _ rand_Reader w))
     = Ok priv ->
     encodings_load priv) ->
  returns h (issuer.GenerateKeypair filename) w = None ->
  returns h (issuer.NewIssuer filename)
    (snd (run h (issuer.GenerateKeypair filename) w)) = (Some iss, None) ->
  returns h (issuer.NewVerifier filename)
    (snd (run h (issuer.GenerateKeypair filename) w)) = (Some v, None) ->
  returns h (issuer.Issue iss t) w1 = (s, None) ->
  returns h2 (issuer.Verify v s) w2 = (Some t, None).
Proof.
  intros Hfs Henc Hgen Hiss Hv Hissue.
  destruct (GenerateKeypair_leaves_both_files h Hfs w filename Hgen)
    as (priv & keyPEM & pubKeyPEM & Hk & Hm & Hp & Hr1 & Hr2).
  destruct (Henc priv Hk) as [Hl1 Hl2].
  set (w' := snd (run h (issuer.GenerateKeypair filename) w)) in *.
  destruct (NewIssuer_returns_issuer _ _ _ _ _ Hiss)
    as (key & k & Hread & Hload & _ & Hpub & _ & _).
  assert (Hkey : k = priv).
  { rewrite Hr1 in Hread. injection Hread as <-.
    rewrite (Hl1 _ Hm) in Hload. now injection Hload as <-. }
  subst k.
  assert (Hvk : v = {| issuer.publicKey := ecdsa.Public priv |}).
  { revert Hv. unfold returns, issuer.NewVerifier; simpl.
    destruct (respond h _ (ioutil_ReadFile (filename ++ ".pub")) w')
      as [r w'']; simpl in *; subst r.
    rewrite (Hl2 _ Hp). now intro E; injection E as <-. }
  apply (Issue_then_Verify h w' w1 h2 w2 filename iss v t s Hiss);
    [ | exact Hissue ].
  rewrite Hvk, Hpub. reflexivity.
Qed.

End KeyFiles.

(* ================================================================== *)
(** ** The sample host keeps its files *)

Module SampleHostFacts.
Import Sample.

Lemma lookup_written (f : string) (x : list byte * FileMode)
  (d : list (string * (list byte * FileMode))) :
  lookup f ((f, x) :: d) = Some x.
Proof. simpl. now rewrite String.eqb_refl. Qed.

Lemma lookup_other (f g : string) (x : list byte * FileMode)
  (d : list (string * (list byte * FileMode))) :
  f <> g -> lookup g ((f, x) :: d) = lookup g d.
Proof.
  intro Hne. simpl. destruct (String.eqb_spec g f) as [-> | _];
    [ now destruct Hne | reflexivity ].
Qed.

Lemma read_answer (f : string) (w : world) :
  fst (respond Sample.host _ (ioutil_ReadFile f) w) = Cases.read_of f (disk w).
Proof.
  simpl. unfold Cases.read_of. now destruct (lookup f (disk w)) as [[d m] | ].
Qed.

Lemma keeps_files : KeepsFiles Sample.host.
Proof.
  split.
  - intros f data perm w. rewrite read_answer. simpl. unfold write.
    destruct (lookup f (disk w)) as [[d m] | ] eqn:Hl.
    + destruct (Z.testbit m 7); simpl; [ | discriminate ].
      intros _. unfold Cases.read_of. now rewrite lookup_written.
    + simpl. intros _. unfold Cases.read_of. now rewrite lookup_written.
  - intros f g data perm w Hne. rewrite !read_answer. simpl. unfold write.
    destruct (lookup f (disk w)) as [[d m] | ] eqn:Hl.
    + destruct (Z.testbit m 7); simpl; [ | reflexivity ].
      unfold Cases.read_of. now rewrite (lookup_other f g _ _ Hne).
    + simpl. unfold Cases.read_of. now rewrite (lookup_other f g _ _ Hne).
Qed.
End SampleHostFacts.

(* ================================================================== *)
(** ** The further properties on the sample library and host *)

Section FurtherRuns.
Import Sample Demo Cases.

(** An RSA private key in [rsa.priv] is refused by [NewIssuer]. *)
Lemma NewIssuer_refuses_other_key_types_at_sample :
  fst (respond host _ (ioutil_ReadFile ("rsa" ++ ".priv")) world0)
  = Ok [x00; x21; x05]
  /\ jose_LoadPrivateKey [x00; x21; x05]
     = Ok (RsaPrivateKey
             {| rsa.Public := {| rsa.N := 33; rsa.E := 65537 |};
                rsa.D := 5 |})
  /\ (forall k,
        RsaPrivateKey
          {| rsa.Public := {| rsa.N := 33; rsa.E := 65537 |}; rsa.D := 5 |}
        <> EcdsaPrivateKey k)
  /\ returns host (issuer.NewIssuer "rsa") world0
     = (None,
        Some "expected an ECDSA private key, but got a key of type *rsa.PrivateKey").
Proof.
  assert (H1 : fst (respond host _ (ioutil_ReadFile ("rsa" ++ ".priv"))
                      world0)
               = Ok [x00; x21; x05]) by reflexivity.
  assert (H2 : jose_LoadPrivateKey [x00; x21; x05]
               = Ok (RsaPrivateKey
                       {| rsa.Public := {| rsa.N := 33; rsa.E := 65537 |};
                          rsa.D := 5 |})) by reflexivity.
  assert (H3 : forall k,
             RsaPrivateKey
               {| rsa.Public := {| rsa.N := 33; rsa.E := 65537 |};
                  rsa.D := 5 |}
             <> EcdsaPrivateKey k) by (intro k; discriminate).
  exact (conj H1 (conj H2 (conj H3
           (NewIssuer_refuses_other_key_types host world0 "rsa"
              [x00; x21; x05] _ H1 H2 H3)))).
Defined.

(** On an empty disk [NewIssuer] returns the error of the read. *)
Lemma NewIssuer_returns_the_error_of_the_failing_step_at_sample :
  fst (respond host _ (ioutil_ReadFile ("k" ++ ".priv")) bare)
  = Err "open k.priv: no such file or directory"
  /\ returns host (issuer.NewIssuer "k") bare
     = (None, Some "open k.priv: no such file or directory").
Proof.
  assert (H1 : fst (respond host _ (ioutil_ReadFile ("k" ++ ".priv")) bare)
               = Err "open k.priv: no such file or directory")
    by reflexivity.
  exact (conj H1
           (NewIssuer_returns_the_error_of_the_failing_step host bare "k"
              "open k.priv: no such file or directory" (or_introl H1))).
Defined.

(** Missing and garbled key files, and an RSA key, at the sample: every
    loader returns an error and no object. *)
Example key_loaders_on_unusable_files_at_sample :
  returns host (issuer.NewVerifier "k") bare
  = (None, Some "open k.pub: no such file or directory")
  /\ returns host (verifier.NewVerifier public_key_in "k") bare
     = (None, Some "open k.pub: no such file or directory")
  /\ returns host (issuer.NewVerifier "junk") garbled
     = (None, Some "square/go-jose: parse error")
  /\ returns host (verifier.NewVerifier public_key_in "junk") garbled
     = (None, Some "square/go-jose: parse error")
  /\ returns host (issuer.NewIssuer "junk") garbled
     = (None, Some "square/go-jose: parse error")
  /\ trace host (issuer.NewIssuer "junk") garbled
     = [FileRead "junk.priv" (Ok [xff])].
Proof. repeat split. Qed.

(** With an exhausted random source [Issue] returns the empty string and
    the signer's error. *)
Lemma Issue_returns_the_empty_string_with_an_error_at_sample :
  snd (returns host (issuer.Issue issuer0 alice) drained) = Some "EOF"
  /\ fst (returns host (issuer.Issue issuer0 alice) drained) = ""
  /\ (proto_Marshal alice = Err "EOF"
      \/ exists tokenBytes,
           proto_Marshal alice = Ok tokenBytes
           /\ (signer_Sign (issuer.signer issuer0) tokenBytes
                 (fst (respond host _ rand_Reader drained)) = Err "EOF"
               \/ exists jws,
                    signer_Sign (issuer.signer issuer0) tokenBytes
                      (fst (respond host _ rand_Reader drained)) = Ok jws
                    /\ jws_CompactSerialize jws = Err "EOF")).
Proof.
  assert (H1 : snd (returns host (issuer.Issue issuer0 alice) drained)
               = Some "EOF") by reflexivity.
  exact (conj H1
           (Issue_returns_the_empty_string_with_an_error host drained
              issuer0 alice "EOF" H1)).
Defined.

(** A token that expired before the sample's time is returned by the
    protobuf verifier. *)
Lemma pb_Verify_returns_the_decoded_token_at_any_time_at_sample :
  decodes proto_Unmarshal (issuer.publicKey pb_verifier0)
    (wire ES256 late) late
  /\ Expiration late < nowMillisOf host world0
  /\ returns host (issuer.Verify pb_verifier0 (wire ES256 late)) world0
     = (Some late, None)
  /\ trace host (issuer.Verify pb_verifier0 (wire ES256 late)) world0 = [].
Proof.
  assert (H1 : decodes proto_Unmarshal (issuer.publicKey pb_verifier0)
                 (wire ES256 late) late).
  { exists {| alg := x01; tag := key_tag (ecdsa.Public p256);
              payload := (put_uint 8 (Expiration late) ++ Claims late)%list |},
           (put_uint 8 (Expiration late) ++ Claims late)%list.
    repeat split. }
  assert (H2 : Expiration late < nowMillisOf host world0)
    by (vm_compute; reflexivity).
  exact (conj H1 (conj H2
           (pb_Verify_returns_the_decoded_token_at_any_time pb_verifier0
              (wire ES256 late) late H1 host world0))).
Defined.

(** The token [late], expired at the sample's time, is expired a second
    later. *)
Lemma TokenExpired_stays_expired_at_sample :
  fst (respond host _ time_Now_UnixNano world0)
  <= fst (respond host _ time_Now_UnixNano (world_at (noon + 1000000000)))
  /\ returns host (verifier.TokenExpired late) world0 = true
  /\ returns host (verifier.TokenExpired late)
       (world_at (noon + 1000000000)) = true.
Proof.
  assert (H1 : fst (respond host _ time_Now_UnixNano world0)
               <= fst (respond host _ time_Now_UnixNano
                         (world_at (noon + 1000000000))))
    by (vm_compute; intro H; discriminate H).
  assert (H2 : returns host (verifier.TokenExpired late) world0 = true)
    by reflexivity.
  exact (conj H1 (conj H2
           (TokenExpired_stays_expired host host world0
              (world_at (noon + 1000000000)) late H1 H2))).
Defined.

(** Between the sample's time and a second later: the token [alice],
    accepted at the later time, is accepted at the earlier one; the token
    [late], refused at the earlier time, is refused at the later one. *)
Lemma Verify_acceptance_only_ends_at_sample :
  fst (respond host _ time_Now_UnixNano world0)
  <= fst (respond host _ time_Now_UnixNano (world_at (noon + 1000000000)))
  /\ returns host (verifier.Verify verifier0 (wire ES256 alice))
       (world_at (noon + 1000000000)) = (Some alice, None)
  /\ returns host (verifier.Verify verifier0 (wire ES256 alice)) world0
     = (Some alice, None)
  /\ returns host (verifier.Verify verifier0 (wire ES256 late)) world0
     = (None, Some "token has expired")
  /\ returns host (verifier.Verify verifier0 (wire ES256 late))
       (world_at (noon + 1000000000))
     = (None, Some "token has expired").
Proof.
  assert (H1 : fst (respond host _ time_Now_UnixNano world0)
               <= fst (respond host _ time_Now_UnixNano
                         (world_at (noon + 1000000000))))
    by (vm_compute; intro H; discriminate H).
  assert (H2 : returns host (verifier.Verify verifier0 (wire ES256 alice))
                 (world_at (noon + 1000000000)) = (Some alice, None))
    by reflexivity.
  assert (H3 : returns host (verifier.Verify verifier0 (wire ES256 late))
                 world0 = (None, Some "token has expired"))
    by reflexivity.
  exact (conj H1 (conj H2
           (conj
              (proj1 (Verify_acceptance_only_ends host host world0
                        (world_at (noon + 1000000000)) verifier0
                        (wire ES256 alice) H1) alice H2)
              (conj H3
                 (proj2 (Verify_acceptance_only_ends host host world0
                           (world_at (noon + 1000000000)) verifier0
                           (wire ES256 late) H1) _ H3))))).
Defined.

(** The token [on_time] expires at 1700000000000 ms: it is valid at the
    last nanosecond of that millisecond and expired at the next one. *)
Lemma TokenExpired_from_the_next_millisecond_at_sample :
  0 <= Expiration on_time
  /\ (returns host (verifier.TokenExpired on_time)
        (world_at (noon + 1000000)) = true
      <-> (Expiration on_time + 1) * time_Millisecond
          <= fst (respond host _ time_Now_UnixNano
                    (world_at (noon + 1000000))))
  /\ returns host (verifier.TokenExpired on_time)
       (world_at (noon + 999999)) = false
  /\ returns host (verifier.TokenExpired on_time)
       (world_at (noon + 1000000)) = true.
Proof.
  assert (H1 : 0 <= Expiration on_time)
    by (vm_compute; intro H; discriminate H).
  exact (conj H1
           (conj (TokenExpired_from_the_next_millisecond host
                    (world_at (noon + 1000000)) on_time H1)
                 (conj eq_refl eq_refl))).
Defined.

(** The key the sample's random pool generates is encoded so that it
    loads back. *)
Lemma sample_generated_key_loads :
  forall priv,
    ecdsa_GenerateKey issuer.curveEll (fst (respond host _ rand_Reader world0))
    = Ok priv ->
    encodings_load priv.
Proof.
  intros priv E. injection E as <-.
  split; intros der E; injection E as <-; reflexivity.
Qed.

(** A key pair generated under [fresh] loads back as the P-256 key. *)
Lemma generated_keypair_loads_back_at_sample :
  returns host (issuer.GenerateKeypair "fresh") world0 = None
  /\ exists priv,
       ecdsa_GenerateKey issuer.curveEll
         (fst (respond host _ rand_Reader world0)) = Ok priv
       /\ returns host (issuer.NewVerifier "fresh")
            (snd (run host (issuer.GenerateKeypair "fresh") world0))
          = (Some {| issuer.publicKey := ecdsa.Public priv |}, None)
       /\ returns host (issuer.NewIssuer "fresh")
            (snd (run host (issuer.GenerateKeypair "fresh") world0))
          = match jose_NewSigner issuer.curveJose (EcdsaPrivateKey priv) with
            | Ok sg =>
              (Some {| issuer.Issuer_Verifier :=
                         {| issuer.publicKey := ecdsa.Public priv |};
                       issuer.signer := sg;
                       issuer.LogTokenIssued := None |},
               None)
            | Err e => (None, Some e)
            end.
Proof.
  assert (H1 : returns host (issuer.GenerateKeypair "fresh") world0 = None)
    by reflexivity.
  exact (conj H1
           (generated_keypair_loads_back host world0 "fresh"
              SampleHostFacts.keeps_files sample_generated_key_loads H1)).
Defined.

(** From [GenerateKeypair] to [Verify] at the sample. *)
Lemma token_round_trip_from_a_generated_keypair_at_sample :
  returns host (issuer.GenerateKeypair "fresh") world0 = None
  /\ returns host (issuer.NewIssuer "fresh")
       (snd (run host (issuer.GenerateKeypair "fresh") world0))
     = (Some issuer0, None)
  /\ returns host (issuer.NewVerifier "fresh")
       (snd (run host (issuer.GenerateKeypair "fresh") world0))
     = (Some pb_verifier0, None)
  /\ returns host (issuer.Issue issuer0 alice) world0
     = (wire ES256 alice, None)
  /\ returns host (issuer.Verify pb_verifier0 (wire ES256 alice)) world0
     = (Some alice, None).
Proof.
  assert (H1 : returns host (issuer.GenerateKeypair "fresh") world0 = None)
    by reflexivity.
  assert (H2 : returns host (issuer.NewIssuer "fresh")
                 (snd (run host (issuer.GenerateKeypair "fresh") world0))
               = (Some issuer0, None)) by reflexivity.
  assert (H3 : returns host (issuer.NewVerifier "fresh")
                 (snd (run host (issuer.GenerateKeypair "fresh") world0))
               = (Some pb_verifier0, None)) by reflexivity.
  assert (H4 : returns host (issuer.Issue issuer0 alice) world0
               = (wire ES256 alice, None)) by reflexivity.
  exact (conj H1 (conj H2 (conj H3 (conj H4
           (token_round_trip_from_a_generated_keypair
              (Laws := SampleFacts.laws) host world0 world0 host world0
              "fresh" issuer0 pb_verifier0 alice (wire ES256 alice)
              SampleHostFacts.keeps_files sample_generated_key_loads
              H1 H2 H3 H4))))).
Defined.


(** Both [NewVerifier] functions load the key of [k.pub]. *)
Lemma NewVerifier_functions_agree_at_sample :
  public_key_in "k" = "k" ++ ".pub"
  /\ option_map verifier.publicKey
       (fst (returns host (verifier.NewVerifier public_key_in "k") world0))
     = option_map issuer.publicKey
         (fst (returns host (issuer.NewVerifier "k") world0))
  /\ snd (returns host (verifier.NewVerifier public_key_in "k") world0)
     = snd (returns host (issuer.NewVerifier "k") world0).
Proof.
  assert (H1 : public_key_in "k" = "k" ++ ".pub") by reflexivity.
  exact (conj H1
           (NewVerifier_functions_agree host world0 public_key_in "k" H1)).
Defined.
End FurtherRuns.
